(** * cryptotrkr: prediction accuracy tracker (main.py)

    A shallow embedding of [main.py]: the CoinCodex extractor
    ([fetch_predictions_from_coincodex]), the CoinGecko price lookup
    ([get_actual_price_from_coingecko]), the SQLite helpers
    ([insert_prediction], [find_due_predictions], [insert_result]) and the
    batch run ([main]), followed by the properties of the design document
    that were checked against them.

    Conventions.
    - Python [str] is [string] (bytes; the text handled here is ASCII).
    - Python [float] is the kernel's binary64 [float].
    - A call that may raise returns [exc A]; [try ... except Exception] is
      written out where the source has it.
    - An external service is an oracle: [requests.get] is a function from
      the URL to either an exception or a response.
    - External libraries (dateutil's parser, [float] on strings) are
      parameters of the extractor; concrete models of the fragments used by
      the scenarios are given in [Dateutil] and [PyFloat]. *)

From Stdlib Require Import ZArith List String Ascii Bool Lia.
From Stdlib Require Import Floats.PrimFloat Floats.SpecFloat Floats.FloatOps.
Import ListNotations.

Local Open Scope string_scope.
Local Open Scope Z_scope.

(* ================================================================== *)
(** * Strings *)

Module Str.

Definition chars (s : string) : list ascii := list_ascii_of_string s.
Definition of_chars (l : list ascii) : string := string_of_list_ascii l.

Definition code (c : ascii) : N := N_of_ascii c.

Definition is_digit (c : ascii) : bool := (48 <=? code c)%N && (code c <=? 57)%N.

(** Whitespace of [\s] and [str.strip], ASCII range. *)
Definition is_space (c : ascii) : bool :=
  ((9 <=? code c)%N && (code c <=? 13)%N)
  || ((28 <=? code c)%N && (code c <=? 32)%N).

Definition is_upper (c : ascii) : bool := (65 <=? code c)%N && (code c <=? 90)%N.

Definition lower_char (c : ascii) : ascii :=
  if is_upper c then ascii_of_N (code c + 32) else c.

(** [s.lower()] *)
Definition lower (s : string) : string := of_chars (map lower_char (chars s)).

(** [s.replace(c, '')] for a one-character [c]. *)
Definition remove_char (c : ascii) (s : string) : string :=
  of_chars (filter (fun x => negb (Ascii.eqb x c)) (chars s)).

(** [needle in hay] on two strings. *)
Fixpoint contains (needle hay : string) : bool :=
  if String.prefix needle hay then true
  else match hay with
       | EmptyString => false
       | String _ rest => contains needle rest
       end.

(** [s[:n]] *)
Definition take (n : nat) (s : string) : string := String.substring 0 n s.

Definition digit_val (c : ascii) : Z := Z.of_N (code c) - 48.

(** [int(s)] for a string of decimal digits. *)
Definition to_Z (l : list ascii) : Z :=
  fold_left (fun acc c => 10 * acc + digit_val c) l 0.

Definition digit_char (d : Z) : ascii := ascii_of_N (Z.to_N (48 + d)).

(** Decimal rendering, zero-padded to [w] digits: ["%0wd"] for [0 <= n < 10^w]. *)
Fixpoint pad (w : nat) (n : Z) : string :=
  match w with
  | O => EmptyString
  | S w' => pad w' (n / 10) ++ String (digit_char (n mod 10)) EmptyString
  end.

End Str.

(* ================================================================== *)
(** * Calendar dates: [datetime.date] *)

Record date : Type := mkdate { year : Z; month : Z; day : Z }.

Definition is_leap (y : Z) : bool :=
  ((y mod 4 =? 0) && negb (y mod 100 =? 0)) || (y mod 400 =? 0).

Definition days_in_month (y m : Z) : Z :=
  if m =? 2 then (if is_leap y then 29 else 28)
  else if (m =? 4) || (m =? 6) || (m =? 9) || (m =? 11) then 30
  else 31.

(** The dates [datetime.date] can hold: MINYEAR = 1, MAXYEAR = 9999. *)
Definition valid_dateb (d : date) : bool :=
  (1 <=? year d) && (year d <=? 9999)
  && (1 <=? month d) && (month d <=? 12)
  && (1 <=? day d) && (day d <=? days_in_month (year d) (month d)).

Definition valid_date (d : date) : Prop := valid_dateb d = true.

(** [date(y, m, d)]: raises [ValueError] outside the calendar. *)
Definition make_date (y m d : Z) : option date :=
  let r := mkdate y m d in if valid_dateb r then Some r else None.

(** Chronological order. *)
Definition date_leb (a b : date) : bool :=
  (year a <? year b)
  || ((year a =? year b)
      && ((month a <? month b)
          || ((month a =? month b) && (day a <=? day b)))).

(** [d.isoformat()]: "YYYY-MM-DD". *)
Definition isoformat (d : date) : string :=
  Str.pad 4 (year d) ++ "-" ++ Str.pad 2 (month d) ++ "-" ++ Str.pad 2 (day d).

(** [%Y] of [strftime] as glibc renders it: the year in decimal, without
    padding ("999" for the year 999). *)
Definition strftime_Y (y : Z) : string :=
  if y <? 10 then Str.pad 1 y
  else if y <? 100 then Str.pad 2 y
  else if y <? 1000 then Str.pad 3 y
  else Str.pad 4 y.

(** [d.strftime("%d-%m-%Y")]. *)
Definition strftime_dmy (d : date) : string :=
  Str.pad 2 (day d) ++ "-" ++ Str.pad 2 (month d) ++ "-" ++ strftime_Y (year d).

(** Reads "YYYY-MM-DD": four digits, a dash, two digits, a dash, two digits. *)
Definition read_ymd (s : string) : option (Z * Z * Z) :=
  match Str.chars s with
  | [y1; y2; y3; y4; s1; m1; m2; s2; d1; d2] =>
      if forallb Str.is_digit [y1; y2; y3; y4; m1; m2; d1; d2]
         && Ascii.eqb s1 "-" && Ascii.eqb s2 "-"
      then Some (Str.to_Z [y1; y2; y3; y4], Str.to_Z [m1; m2], Str.to_Z [d1; d2])
      else None
  | _ => None
  end.

(** [datetime.fromisoformat(s).date()] on the date-only form "YYYY-MM-DD"
    (the form [isoformat] writes, and the only form a run stores); [None]
    is [ValueError]. The other forms Python reads (a time part after the
    date; from 3.11 also the basic form YYYYMMDD and week dates) are
    outside this fragment: where a property depends on the date read, the
    target date is taken from [isoformat]. *)
Definition fromisoformat (s : string) : option date :=
  match read_ymd s with
  | Some (y, m, d) => make_date y m d
  | None => None
  end.

(* ================================================================== *)
(** * Regular expressions: the fragment of [re] used by the scraper *)

Module Re.

(** Greedy, backtracking patterns. [Rep lo hi r] is [r{lo,hi}]; [hi = None]
    is unbounded ([*] is [Rep 0 None], [+] is [Rep 1 None], [?] is
    [Rep 0 (Some 1)]). *)
Inductive regex : Type :=
| Eps
| Class (p : ascii -> bool)
| Seq (r1 r2 : regex)
| Rep (lo : nat) (hi : option nat) (r : regex).

(** [rmatch r s k]: match [r] at the head of [s], then continue with [k] on
    the rest; alternatives are tried in the engine's priority order (one
    more iteration before stopping), so the first success is the match
    [re] reports. An unbounded loop runs at most [length s] times: every
    loop body of the patterns below consumes a character. *)
Fixpoint rmatch {A : Type} (r : regex) (s : list ascii)
    (k : list ascii -> option A) {struct r} : option A :=
  match r with
  | Eps => k s
  | Class p =>
      match s with
      | c :: s' => if p c then k s' else None
      | [] => None
      end
  | Seq r1 r2 => rmatch r1 s (fun s' => rmatch r2 s' k)
  | Rep lo hi r0 =>
      (fix rep (budget lo : nat) (s : list ascii) {struct budget} : option A :=
         let stop := match lo with O => k s | S _ => None end in
         match budget with
         | O => stop
         | S b =>
             match rmatch r0 s (fun s' => rep b (Nat.pred lo) s') with
             | Some x => Some x
             | None => stop
             end
         end)
        (match hi with Some h => h | None => List.length s end) lo s
  end.

(** A pattern with exactly one capturing group at its end: [pre(grp)]. *)
Record pattern : Type := mkpattern { pre : regex; grp : regex }.

(** Match at the head of [s]: the text of the group and what is left. *)
Definition match_at (p : pattern) (s : list ascii)
    : option (list ascii * list ascii) :=
  rmatch (pre p) s (fun s1 =>
    rmatch (grp p) s1 (fun s2 =>
      Some (firstn (List.length s1 - List.length s2) s1, s2))).

(** Scan left to right; after a match the scan resumes where it ended
    ([skip] characters of the match are still to be passed). *)
Fixpoint scan (p : pattern) (s : list ascii) (skip : nat) {struct s}
    : list string :=
  match skip with
  | S n => match s with [] => [] | _ :: s' => scan p s' n end
  | O =>
      match match_at p s with
      | Some (cap, rest) =>
          Str.of_chars cap ::
            match s with
            | [] => []
            | _ :: s' => scan p s' (Nat.pred (List.length s - List.length rest))
            end
      | None => match s with [] => [] | _ :: s' => scan p s' O end
      end
  end.

(** [re.findall(p, text)] for a pattern with one group: the group's text
    of each non-overlapping match. *)
Definition findall (p : pattern) (text : string) : list string :=
  scan p (Str.chars text) O.

Definition digit : regex := Class Str.is_digit.
Definition chr (c : ascii) : regex := Class (Ascii.eqb c).
Definition dash_or_slash : regex :=
  Class (fun c => Ascii.eqb c "-" || Ascii.eqb c "/").

(** [r"(\d{1,2}[-/]\d{1,2}[-/]\d{2,4})"] *)
Definition date_pattern : pattern :=
  mkpattern Eps
    (Seq (Rep 1 (Some 2%nat) digit)
       (Seq dash_or_slash
          (Seq (Rep 1 (Some 2%nat) digit)
             (Seq dash_or_slash (Rep 2 (Some 4%nat) digit))))).

(** [r"\$?\s?([0-9]{1,3}(?:[,][0-9]{3})*(?:\.\d+)?)"] *)
Definition price_pattern : pattern :=
  mkpattern
    (Seq (Rep 0 (Some 1%nat) (chr "$")) (Rep 0 (Some 1%nat) (Class Str.is_space)))
    (Seq (Rep 1 (Some 3%nat) digit)
       (Seq (Rep 0 None (Seq (chr ",") (Rep 3 (Some 3%nat) digit)))
          (Rep 0 (Some 1%nat) (Seq (chr ".") (Rep 1 None digit))))).

End Re.

(* ================================================================== *)
(** * dateutil: [parser.parse(s, dayfirst=...).date()] on numeric dates *)

Module Dateutil.

(** The fragment modelled is the all-numeric date [N sep N sep N] with
    separators [-] or [/] and one to four digits per field: the shape of
    an ISO date and of every match of [Re.date_pattern]. The three numbers
    are collected in order; a field is taken as the year when it is
    written with more than two digits (when the two separators differ the
    third field is read on its own, as a number, and is the year when it
    exceeds 100); the remaining ambiguity is resolved month-first unless
    [dayfirst] is set or the first number cannot be a month. [None] stands
    for the parser raising. *)

Fixpoint span_digits (l : list ascii) : list ascii * list ascii :=
  match l with
  | c :: l' =>
      if Str.is_digit c
      then let (d, rest) := span_digits l' in (c :: d, rest)
      else ([], l)
  | [] => ([], [])
  end.

Definition is_sep (c : ascii) : bool := Ascii.eqb c "-" || Ascii.eqb c "/".

Definition field_ok (t : list ascii) : bool :=
  (1 <=? List.length t)%nat && (List.length t <=? 4)%nat.

(** The lexer: the three digit fields and whether the two separators
    agree, or [None] outside the fragment. *)
Definition fields (s : string)
    : option (list ascii * list ascii * list ascii * bool) :=
  let (a, r1) := span_digits (Str.chars s) in
  match r1 with
  | s1 :: r1' =>
      let (b, r2) := span_digits r1' in
      match r2 with
      | s2 :: r2' =>
          let (c, r3) := span_digits r2' in
          match r3 with
          | [] =>
              if is_sep s1 && is_sep s2
                 && field_ok a && field_ok b && field_ok c
              then Some (a, b, c, Ascii.eqb s1 s2) else None
          | _ :: _ => None
          end
      | [] => None
      end
  | [] => None
  end.

(** A digit string longer than two characters is labelled as the year. *)
Definition is_year_field (t : list ascii) : bool := (2 <? List.length t)%nat.

(** [_ymd.resolve_ymd] with no month name, [yearfirst=False]:
    the result is (year, month, day). *)
Definition resolve_ymd (dayfirst : bool) (year_at_0 : bool) (v0 v1 v2 : Z)
    : Z * Z * Z :=
  if (31 <? v0) || year_at_0 then
    if dayfirst && (v2 <=? 12) then (v0, v2, v1) else (v0, v1, v2)
  else if (12 <? v0) || (dayfirst && (v1 <=? 12)) then (v2, v1, v0)
  else (v2, v0, v1).

(** [parserinfo.convertyear]: a two-digit year is placed within fifty
    years of the current one. *)
Definition convertyear (this_year : Z) (century_specified : bool) (y : Z) : Z :=
  if (y <? 100) && negb century_specified then
    let y' := y + (this_year / 100) * 100 in
    if this_year + 50 <=? y' then y' - 100
    else if y' <? this_year - 50 then y' + 100
    else y'
  else y.

Definition parse (this_year : Z) (dayfirst : bool) (s : string) : option date :=
  match fields s with
  | None => None
  | Some (a, b, c, same_sep) =>
      let ya := is_year_field a in
      let yb := is_year_field b in
      let yc := if same_sep then is_year_field c else 100 <? Str.to_Z c in
      (* a second year field: "Year is already set" *)
      if (ya && yb) || (ya && yc) || (yb && yc) then None
      else
        let '(y, m, d) :=
          resolve_ymd dayfirst ya (Str.to_Z a) (Str.to_Z b) (Str.to_Z c) in
        make_date (convertyear this_year (ya || yb || yc) y) m d
  end.

End Dateutil.

(* ================================================================== *)
(** * [float(...)] *)

Module PyFloat.

(** [float(n)] for a Python int: the nearest binary64 value, ties to even;
    [None] is [OverflowError]. *)
Definition of_Z (z : Z) : option float :=
  match binary_normalize prec emax z 0 false with
  | S754_infinity _ => None
  | sf => Some (SF2Prim sf)
  end.

(** The value [m / 10^k], correctly rounded. *)
Definition of_ratio10 (m : Z) (k : nat) : float :=
  match m with
  | Z0 => zero
  | Zpos _ =>
      let '(q, e, l) := SFdiv_core_binary prec emax m 0 (10 ^ Z.of_nat k) 0 in
      SF2Prim (binary_round_aux prec emax false q e l)
  | Zneg _ => nan
  end.

Definition all_digits (l : list ascii) : bool :=
  (1 <=? List.length l)%nat && forallb Str.is_digit l.

(** [float(s)] on a plain decimal literal, [digits] or [digits.digits]:
    the strings left by [Re.price_pattern] once the commas are removed.
    [None] is [ValueError]. The other literals Python reads (a sign, an
    exponent, surrounding blanks, [5.] and [.5], [inf], [nan]) are outside
    this fragment, which serves the scenarios only: the extractor and the
    lookup take the conversion as a parameter. *)
Definition of_decimal (s : string) : option float :=
  let (ip, rest) := Dateutil.span_digits (Str.chars s) in
  match rest with
  | [] => if all_digits ip then Some (of_ratio10 (Str.to_Z ip) 0) else None
  | dot :: fp =>
      if Ascii.eqb dot "." && all_digits ip && all_digits fp
      then Some (of_ratio10 (Str.to_Z (ip ++ fp)) (List.length fp))
      else None
  end.

End PyFloat.

(* ================================================================== *)
(** * Exceptions and the state-and-exception monad *)

(** The exception classes that occur; all derive from [Exception]. *)
Inductive exn : Type :=
| ConnectionError | Timeout            (* requests.get *)
| JSONDecodeError                      (* r.json() *)
| AttributeError | TypeError | KeyError | ValueError | OverflowError
| ParserError                          (* dateutil *)
| IntegrityError.                      (* sqlite3 *)

Inductive exc (A : Type) : Type :=
| Ok (a : A)
| Raise (e : exn).
Arguments Ok {A} a.
Arguments Raise {A} e.

(** A statement over a mutable state [S]: it returns or raises, and the
    state it leaves is kept in both cases. *)
Definition M (S A : Type) : Type := S -> S * exc A.

Definition ret {S A} (a : A) : M S A := fun s => (s, Ok a).

Definition bind {S A B} (m : M S A) (f : A -> M S B) : M S B :=
  fun s => match m s with
           | (s', Ok a) => f a s'
           | (s', Raise e) => (s', Raise e)
           end.

Definition lift {S A} (x : exc A) : M S A := fun s => (s, x).

Definition modify {S} (f : S -> S) : M S unit := fun s => (f s, Ok tt).

Definition gets {S A} (f : S -> A) : M S A := fun s => (s, Ok (f s)).

(** [try: m  except Exception as e: h e] *)
Definition try_except {S A} (m : M S A) (h : exn -> M S A) : M S A :=
  fun s => match m s with
           | (s', Ok a) => (s', Ok a)
           | (s', Raise e) => h e s'
           end.

Declare Scope py_scope.
Delimit Scope py_scope with py.
Notation "x <- m ;; k" := (bind m (fun x => k))
  (at level 61, m at next level, right associativity) : py_scope.
Notation "m ;;; k" := (bind m (fun _ => k))
  (at level 61, right associativity) : py_scope.

(** [for x in l: body x]; an exception leaves the loop. *)
Fixpoint for_each {S X} (l : list X) (body : X -> M S unit) : M S unit :=
  match l with
  | [] => ret tt
  | x :: l' => bind (body x) (fun _ => for_each l' body)
  end.

(** [raise] of a failed library call. *)
Definition or_raise {A} (e : exn) (o : option A) : exc A :=
  match o with Some a => Ok a | None => Raise e end.

(* ================================================================== *)
(** * Python values decoded from JSON *)

#[local] Unset Elimination Schemes.
Inductive pyval : Type :=
| PNone
| PBool (b : bool)
| PInt (z : Z)
| PFloat (f : float)
| PStr (s : string)
| PList (l : list pyval)
| PDict (d : list (string * pyval)).
#[local] Set Elimination Schemes.

Module Py.

(** [bool(v)] *)
Definition truthy (v : pyval) : bool :=
  match v with
  | PNone => false
  | PBool b => b
  | PInt z => negb (z =? 0)
  | PFloat f => negb (PrimFloat.eqb f 0)
  | PStr s => negb (String.eqb s "")
  | PList l => match l with [] => false | _ => true end
  | PDict d => match d with [] => false | _ => true end
  end.

Fixpoint lookup (k : string) (d : list (string * pyval)) : option pyval :=
  match d with
  | [] => None
  | (k', v) :: d' => if String.eqb k k' then Some v else lookup k d'
  end.

(** [isinstance(v, dict)] *)
Definition is_dict (v : pyval) : bool :=
  match v with PDict _ => true | _ => false end.

(** [v.get(k)]: only a dict has the method. *)
Definition get (v : pyval) (k : string) : exc pyval :=
  match v with
  | PDict d => Ok (match lookup k d with Some x => x | None => PNone end)
  | _ => Raise AttributeError
  end.

(** [k in v] for a string [k]. *)
Definition contains (k : string) (v : pyval) : exc bool :=
  match v with
  | PDict d => Ok (match lookup k d with Some _ => true | None => false end)
  | PList l =>
      Ok (existsb (fun x => match x with PStr s => String.eqb s k | _ => false end) l)
  | PStr s => Ok (Str.contains k s)
  | _ => Raise TypeError
  end.

(** [v[k]] for a string [k]. *)
Definition subscript (v : pyval) (k : string) : exc pyval :=
  match v with
  | PDict d => or_raise KeyError (lookup k d)
  | _ => Raise TypeError
  end.

(** [iter(v)]: the elements of a list, the keys of a dict, the characters
    of a string. *)
Definition iter (v : pyval) : exc (list pyval) :=
  match v with
  | PList l => Ok l
  | PDict d => Ok (map (fun kv => PStr (fst kv)) d)
  | PStr s => Ok (map (fun c => PStr (String c EmptyString)) (Str.chars s))
  | _ => Raise TypeError
  end.

(** [float(v)], given [float] on strings. *)
Definition to_float (float_of_str : string -> option float) (v : pyval)
    : exc float :=
  match v with
  | PFloat f => Ok f
  | PInt z => or_raise OverflowError (PyFloat.of_Z z)
  | PBool b => Ok (if b then one else zero)
  | PStr s => or_raise ValueError (float_of_str s)
  | _ => Raise TypeError
  end.

(** [parser.parse(v, dayfirst=...).date()], given the parser on strings. *)
Definition parse_date (parser_parse : bool -> string -> option date)
    (dayfirst : bool) (v : pyval) : exc date :=
  match v with
  | PStr s => or_raise ParserError (parser_parse dayfirst s)
  | _ => Raise TypeError
  end.

End Py.

(* ================================================================== *)
(** * HTTP responses and the log *)

(** A tag found by BeautifulSoup: all the scraper asks of the heading is
    its next sibling, and of that block its flattened text
    [get_text(" | ", strip=True)]. *)
Record tag : Type := mktag { find_next_sibling : option string }.

(** A response, with the views of its body the program takes:
    [r.json()] ([None]: the body is not JSON) and the first [h2] whose
    text contains "price prediction" in [BeautifulSoup(r.text)]. *)
Record response : Type := mkresponse {
  status_code : Z;
  text : string;
  json : option pyval;
  find_heading : option tag
}.

Inductive level : Type := DEBUG | INFO | WARNING | ERROR.

(** One constructor per logging call of the program, with its arguments. *)
Inductive message : Type :=
| ApiStatus (status : Z)
| ApiFailed (e : exn)
| PageStatus (status : Z)
| ScrapeFailed (e : exn)
| HistoryFailed (gecko_id target_date : string) (status : Z) (body : string)
| TrackerRun (today : string)
| FetchingPredictions (symbol : string)
| NoPredictions (symbol : string)
| StoredPrediction (symbol target_date : string) (pid : Z)
| NoDue
| FoundDue (n : nat)
| NoMapping (symbol : string)
| CouldNotFetch (symbol target_date : string)
| Evaluated (pid : Z) (symbol target_date : string)
    (predicted actual : float) (pct_error : option float)
| RunComplete.

Definition log_record : Type := level * message.

(* ---------- CONFIG ---------- *)
Definition COINGECKO_BASE : string := "https://api.coingecko.com/api/v3".
Definition COINCodex_BASE : string := "https://coincodex.com".

(* ================================================================== *)
(** * CoinCodex: try API then fallback to scrape *)

(** One extracted prediction: the dict
    [{"target_date": ..., "predicted_price": ..., "source": ...}]. *)
Record prediction : Type := mkprediction {
  target_date : string;
  predicted_price : float;
  source : string
}.

(** The locals the function mutates: [results] and the log. *)
Record fetch_state : Type := mkfetch {
  results : list prediction;
  fetch_log : list log_record
}.

Definition logging_f (l : level) (m : message) : M fetch_state unit :=
  modify (fun s => mkfetch (results s) (fetch_log s ++ [(l, m)])).

Definition append_result (p : prediction) : M fetch_state unit :=
  modify (fun s => mkfetch (results s ++ [p]) (fetch_log s)).

Local Open Scope py_scope.

Section Extractor.

(** [dateutil.parser.parse(s, dayfirst=b).date()]; [None]: it raises. *)
Variable parser_parse : bool -> string -> option date.
(** [float(s)] on a string; [None]: it raises. *)
Variable float_of_str : string -> option float.
(** [requests.get(url, headers=headers, timeout=15)]. *)
Variable requests_get : string -> exc response.

(** [a.get(k1) or a.get(k2) or None] *)
Definition get_either (p : pyval) (k1 k2 : string) : exc pyval :=
  match Py.get p k1 with
  | Raise e => Raise e
  | Ok a =>
      if Py.truthy a then Ok a
      else match Py.get p k2 with
           | Raise e => Raise e
           | Ok b => if Py.truthy b then Ok b else Ok PNone
           end
  end.

(** Lines 89-93: the date of one API entry. Both calls pass
    [dayfirst=False] (the first by default). *)
Definition entry_date (dt : pyval) : M fetch_state date :=
  try_except (lift (Py.parse_date parser_parse false dt))
    (fun _ => lift (Py.parse_date parser_parse false dt)).

(** Lines 85-98: the body of [for p in preds]. *)
Definition api_entry (p : pyval) : M fetch_state unit :=
  dt <- lift (get_either p "date" "target_date") ;;
  price <- lift (get_either p "price" "predicted_price") ;;
  if Py.truthy dt && Py.truthy price then
    parsed <- entry_date dt ;;
    price_f <- lift (Py.to_float float_of_str price) ;;
    append_result (mkprediction (isoformat parsed) price_f "CoinCodex")
  else ret tt.

(** Lines 77-100: the body of the first [try]. *)
Definition api_attempt (symbol : string) : M fetch_state unit :=
  let api_url :=
    COINCodex_BASE ++ "/api/coincodex/get_coin/" ++ Str.lower symbol in
  r <- lift (requests_get api_url) ;;
  if status_code r =? 200 then
    j <- lift (or_raise JSONDecodeError (json r)) ;;
    has <- lift (if Py.is_dict j then Py.contains "price_prediction" j
                 else Ok false) ;;
    if (has : bool) then
      got <- lift (Py.get j "price_prediction") ;;
      preds <- lift (Py.iter (if Py.truthy got then got else PList [])) ;;
      for_each preds api_entry
    else ret tt
  else logging_f DEBUG (ApiStatus (status_code r)).

(** Lines 127-137: the body of [for i in range(...)]. *)
Definition scrape_pair (date_matches price_matches : list string) (i : nat)
    : M fetch_state unit :=
  let dt := nth i date_matches "" in
  let pr := Str.remove_char "," (nth i price_matches "") in
  try_except
    (parsed <- lift (or_raise ParserError (parser_parse false dt)) ;;
     price_f <- lift (or_raise ValueError (float_of_str pr)) ;;
     append_result (mkprediction (isoformat parsed) price_f "CoinCodex-scrape"))
    (fun _ => ret tt).

(** Lines 119-137: what is done with the flattened text of the block. *)
Definition scrape_text (text : string) : M fetch_state unit :=
  let date_matches := Re.findall Re.date_pattern text in
  let price_matches := Re.findall Re.price_pattern text in
  match date_matches, price_matches with
  | _ :: _, _ :: _ =>
      for_each
        (seq 0 (Nat.min (List.length date_matches) (List.length price_matches)))
        (scrape_pair date_matches price_matches)
  | _, _ => ret tt
  end.

(** Lines 107-139: the body of the second [try]. *)
Definition scrape_attempt (symbol : string) : M fetch_state unit :=
  let page_url := COINCodex_BASE ++ "/currency/" ++ Str.lower symbol in
  r <- lift (requests_get page_url) ;;
  if status_code r =? 200 then
    match find_heading r with
    | Some candidate =>
        match find_next_sibling candidate with
        | Some block_text => scrape_text block_text
        | None => ret tt
        end
    | None => ret tt
    end
  else logging_f DEBUG (PageStatus (status_code r)).

Definition fetch_body (symbol : string) : M fetch_state (list prediction) :=
  (* Strategy 1: try basic API-ish endpoint *)
  try_except (api_attempt symbol)
    (fun e => logging_f DEBUG (ApiFailed e)) ;;;
  (* Strategy 2: fallback scrape *)
  res <- gets results ;;
  (match res with
   | [] => try_except (scrape_attempt symbol)
             (fun e => logging_f DEBUG (ScrapeFailed e))
   | _ :: _ => ret tt
   end) ;;;
  gets results.

(** [fetch_predictions_from_coincodex(symbol)]: the value returned or the
    exception raised, with the log records written on the way. *)
Definition fetch_predictions_from_coincodex (symbol : string)
    : exc (list prediction) * list log_record :=
  let '(s, out) := fetch_body symbol (mkfetch [] []) in
  (out, fetch_log s).

End Extractor.

(* ================================================================== *)
(** * CoinGecko: get actual price on target date *)

Definition logging_w (l : level) (m : message) : M (list log_record) unit :=
  modify (fun s : list log_record => (s ++ [(l, m)])%list).

Section PriceHistory.

Variable float_of_str : string -> option float.
Variable requests_get : string -> exc response.

(** Lines 157-161: the price in a 200 response, [None] when the
    function falls through to the warning. *)
Definition history_price (r : response) : M (list log_record) (option float) :=
  if status_code r =? 200 then
    j <- lift (or_raise JSONDecodeError (json r)) ;;
    md <- lift (Py.get j "market_data") ;;
    has_cp <- lift (if Py.truthy md then Py.contains "current_price" md
                    else Ok false) ;;
    has_usd <- lift (if (has_cp : bool) then
                       match Py.subscript md "current_price" with
                       | Ok cp => Py.contains "usd" cp
                       | Raise e => Raise e
                       end
                     else Ok false) ;;
    if (has_usd : bool) then
      cp <- lift (Py.subscript md "current_price") ;;
      usd <- lift (Py.subscript cp "usd") ;;
      f <- lift (Py.to_float float_of_str usd) ;;
      ret (Some f)
    else ret None
  else ret None.

Definition get_actual_price_from_coingecko (gecko_id target_date : string)
    : M (list log_record) (option float) :=
  dt <- lift (or_raise ValueError (fromisoformat target_date)) ;;
  let date_for_api := strftime_dmy dt in
  let url :=
    COINGECKO_BASE ++ "/coins/" ++ gecko_id ++ "/history?date=" ++ date_for_api in
  r <- lift (requests_get url) ;;
  found <- history_price r ;;
  match found with
  | Some f => ret (Some f)
  | None =>
      logging_w WARNING
        (HistoryFailed gecko_id target_date (status_code r) (Str.take 200 (text r))) ;;;
      ret None
  end.

End PriceHistory.

(* ================================================================== *)
(** * DB *)

(** A row of [predictions]; [created_at] is written by the database and
    read by no query, it is left out. *)
Record prediction_row : Type := mkprow {
  p_id : Z;
  p_symbol : string;
  p_source : string;
  p_prediction_date : string;
  p_target_date : string;
  p_predicted_price : float
}.

(** A row of [results]; the three REAL columns are nullable. *)
Record result_row : Type := mkrrow {
  r_id : Z;
  r_prediction_id : Z;
  r_actual_price : option float;
  r_abs_error : option float;
  r_pct_error : option float
}.

(** The database behind a connection: the two tables of [init_db]. *)
Record conn : Type := mkconn {
  tbl_predictions : list prediction_row;
  tbl_results : list result_row
}.

(** The rowid given to a new row of an [INTEGER PRIMARY KEY] table: one
    more than the largest in use, 1 in an empty table. (Rowids are 64-bit:
    this is what SQLite does while the largest rowid is below 2^63 - 1;
    at that limit it picks an unused rowid at random, which is not
    modelled.) *)
Definition next_rowid (ids : list Z) : Z :=
  match ids with
  | [] => 1
  | i :: rest => fold_right Z.max i rest + 1
  end.

(** A Python value bound to a parameter and written to a REAL column, as
    it is read back: [None] and a NaN are bound as NULL; a zero is read
    back as 0.0 (SQLite writes a float with an integral value as an
    integer, which loses the sign of -0.0); any other float is kept. *)
Definition bind_real (v : option float) : option float :=
  match v with
  | Some f =>
      if PrimFloat.is_nan f then None
      else if (f =? 0)%float then Some 0%float
      else Some f
  | None => None
  end.

(** [insert_prediction]: the connection after the commit, and
    [c.lastrowid]. [predicted_price] is [REAL NOT NULL]: a NaN, bound as
    NULL, violates the constraint; [execute] raises
    [sqlite3.IntegrityError] and nothing is written. *)
Definition insert_prediction (c : conn)
    (symbol source prediction_date target_date : string) (predicted_price : float)
    : exc (conn * Z) :=
  match bind_real (Some predicted_price) with
  | None => Raise IntegrityError
  | Some price =>
      let id := next_rowid (map p_id (tbl_predictions c)) in
      Ok (mkconn
            (tbl_predictions c ++
               [mkprow id symbol source prediction_date target_date price])
            (tbl_results c),
          id)
  end.

(** [insert_result]; the three REAL columns are nullable. *)
Definition insert_result (c : conn) (prediction_id : Z)
    (actual_price abs_error pct_error : option float) : conn * Z :=
  let id := next_rowid (map r_id (tbl_results c)) in
  (mkconn (tbl_predictions c)
     (tbl_results c ++
        [mkrrow id prediction_id (bind_real actual_price) (bind_real abs_error)
           (bind_real pct_error)]),
   id).

Module Sql.

(** [DATE(s)] on the date-only time value "YYYY-MM-DD", the form the
    program stores and passes: with a month in 1-12 and a day in 1-31 the
    date is given back as it was read (also a day past the end of its
    month, as in "2024-02-30", which SQLite 3.40 does not normalise),
    otherwise the value is NULL ([None]). Other time values (a time part
    after the date, a sign, 'now', Julian day numbers) are outside this
    fragment and read as NULL here: where a property depends on the date
    of such a text, the text is taken from [isoformat]. *)
Definition DATE (s : string) : option string :=
  match read_ymd s with
  | Some (y, m, d) =>
      if (1 <=? m) && (m <=? 12) && (1 <=? d) && (d <=? 31)
      then Some (isoformat (mkdate y m d))
      else None
  | None => None
  end.

(** [a <= b] on TEXT values, BINARY collation; NULL if either is NULL. *)
Definition le (a b : option string) : option bool :=
  match a, b with
  | Some x, Some y => Some (String.leb x y)
  | _, _ => None
  end.

(** A WHERE clause keeps the rows on which it is true. *)
Definition is_true (v : option bool) : bool :=
  match v with Some true => true | _ => false end.

(** [FROM predictions p LEFT JOIN results r ON r.prediction_id = p.id]:
    every prediction with each of its results, or once with NULLs. *)
Definition left_join (ps : list prediction_row) (rs : list result_row)
    : list (prediction_row * option result_row) :=
  flat_map
    (fun p =>
       match filter (fun r => r_prediction_id r =? p_id p) rs with
       | [] => [(p, None)]
       | ms => map (fun r => (p, Some r)) ms
       end)
    ps.

End Sql.

(** A row of the [SELECT] of [find_due_predictions]:
    (id, symbol, source, target_date, predicted_price). *)
Definition due_row : Type := Z * string * string * string * float.

Definition select_due (p : prediction_row) : due_row :=
  (p_id p, p_symbol p, p_source p, p_target_date p, p_predicted_price p).

(** [find_due_predictions(conn, as_of_date=None)]; [today] is
    [date.today()]. *)
Definition find_due_predictions (today : date) (c : conn)
    (as_of_date : option string) : list due_row :=
  let as_of_date :=
    match as_of_date with
    | None => isoformat today
    | Some d => d
    end in
  map (fun pr => select_due (fst pr))
    (filter
       (fun pr =>
          (* r.id IS NULL AND DATE(p.target_date) <= DATE(?) *)
          match snd pr with None => true | Some _ => false end
          && Sql.is_true
               (Sql.le (Sql.DATE (p_target_date (fst pr))) (Sql.DATE as_of_date)))
       (Sql.left_join (tbl_predictions c) (tbl_results c))).

(* ================================================================== *)
(** * MAIN RUN *)

Record coin : Type := mkcoin { gecko_id : string; symbol : string }.

(** Which symbols to track. *)
Definition TRACK : list coin := [mkcoin "bitcoin" "BTC"].

(** The state of a run: the database, the log, and the number of calls
    made so far to the two external services. *)
Record run_state : Type := mkrun {
  db : conn;
  run_log : list log_record;
  calls : nat
}.

Definition logging_r (l : level) (m : message) : M run_state unit :=
  modify (fun s => mkrun (db s) (run_log s ++ [(l, m)]) (calls s)).

(** Lines 246-247: the two error figures. *)
Definition evaluate (predicted_price actual : float) : float * option float :=
  let abs_error := abs (predicted_price - actual)%float in
  let pct_error :=
    if negb (actual =? 0)%float then Some ((abs_error / actual) * 100)%float
    else None in
  (abs_error, pct_error).

Section Run.

Variable parser_parse : bool -> string -> option date.
Variable float_of_str : string -> option float.
(** The services during the run: what the [n]-th call of the run to
    [fetch_predictions_from_coincodex] or
    [get_actual_price_from_coingecko] gets for a URL. *)
Variable net : nat -> string -> exc response.
(** [date.today()] *)
Variable today : date.

Definition call_fetch (gecko : string) : M run_state (list prediction) :=
  fun s =>
    let '(out, lg) :=
      fetch_predictions_from_coincodex parser_parse float_of_str
        (net (calls s)) gecko in
    (mkrun (db s) (run_log s ++ lg) (S (calls s)), out).

Definition call_price (gecko target : string) : M run_state (option float) :=
  fun s =>
    let '(lg, out) :=
      get_actual_price_from_coingecko float_of_str (net (calls s))
        gecko target (run_log s) in
    (mkrun (db s) lg (S (calls s)), out).

Definition store_prediction (sym today_iso : string) (p : prediction)
    : M run_state unit :=
  pid <- (fun s =>
            match insert_prediction (db s) sym (source p) today_iso
                    (target_date p) (predicted_price p) with
            | Ok (c, id) => (mkrun c (run_log s) (calls s), Ok id)
            | Raise e => (s, Raise e)
            end) ;;
  logging_r INFO (StoredPrediction sym (target_date p) pid).

(** Lines 214-227: the body of [for coin in TRACK]. *)
Definition fetch_coin (today_iso : string) (c : coin) : M run_state unit :=
  logging_r INFO (FetchingPredictions (symbol c)) ;;;
  preds <- call_fetch (gecko_id c) ;;
  match preds with
  | [] => logging_r INFO (NoPredictions (symbol c))
  | _ :: _ => for_each preds (store_prediction (symbol c) today_iso)
  end.

(** [next((c["gecko_id"] for c in TRACK if c["symbol"] == symbol), None)] *)
Definition gecko_of (track : list coin) (sym : string) : option string :=
  match find (fun c => String.eqb (symbol c) sym) track with
  | Some c => Some (gecko_id c)
  | None => None
  end.

(** Lines 236-252: the body of [for row in due]. *)
Definition evaluate_row (track : list coin) (row : due_row) : M run_state unit :=
  let '(prediction_id, sym, _, target, predicted) := row in
  match gecko_of track sym with
  | None => logging_r ERROR (NoMapping sym)
  | Some gecko =>
      if String.eqb gecko "" then logging_r ERROR (NoMapping sym)
      else
        actual <- call_price gecko target ;;
        match actual with
        | None => logging_r WARNING (CouldNotFetch sym target)
        | Some a =>
            let '(abs_error, pct_error) := evaluate predicted a in
            modify (fun s =>
                      mkrun (fst (insert_result (db s) prediction_id
                                    (Some a) (Some abs_error) pct_error))
                        (run_log s) (calls s)) ;;;
            logging_r INFO
              (Evaluated prediction_id sym target predicted a pct_error)
        end
  end.

(** The run over a list of tracked coins. *)
Definition run (track : list coin) : M run_state unit :=
  let today_iso := isoformat today in
  logging_r INFO (TrackerRun today_iso) ;;;
  (* 1) Fetch predictions (for each tracked coin) *)
  for_each track (fetch_coin today_iso) ;;;
  (* 2) Evaluate due predictions that aren't evaluated yet *)
  due <- gets (fun s => find_due_predictions today (db s) (Some today_iso)) ;;
  (match due with
   | [] => logging_r INFO NoDue
   | _ :: _ =>
       logging_r INFO (FoundDue (List.length due)) ;;;
       for_each due (evaluate_row track)
   end) ;;;
  logging_r INFO RunComplete.

(** [main()], on the database found at [DB_PATH]. *)
Definition main (c : conn) : run_state * exc unit :=
  run TRACK (mkrun c [] O).

End Run.

Local Close Scope py_scope.

(* ================================================================== *)
(** * Vocabulary of the properties *)

(** ** The two strategies *)

Definition api_url (symbol : string) : string :=
  COINCodex_BASE ++ "/api/coincodex/get_coin/" ++ Str.lower symbol.

Definition page_url (symbol : string) : string :=
  COINCodex_BASE ++ "/currency/" ++ Str.lower symbol.

(** What the first [try] may add to the log, by the outcome of its request. *)
Definition api_log_ok (get : string -> exc response) (symbol : string)
    (rs : list prediction) (lg : list log_record) : Prop :=
  match get (api_url symbol) with
  | Raise e => lg = [(DEBUG, ApiFailed e)] /\ rs = []
  | Ok r =>
      if status_code r =? 200 then
        match json r with
        | None => lg = [(DEBUG, ApiFailed JSONDecodeError)] /\ rs = []
        | Some _ => lg = [] \/ exists e, lg = [(DEBUG, ApiFailed e)]
        end
      else lg = [(DEBUG, ApiStatus (status_code r))] /\ rs = []
  end.

(** What the second [try] may add to the log. *)
Definition scrape_log_ok (get : string -> exc response) (symbol : string)
    (rs : list prediction) (lg : list log_record) : Prop :=
  match get (page_url symbol) with
  | Raise e => lg = [(DEBUG, ScrapeFailed e)] /\ rs = []
  | Ok r =>
      if status_code r =? 200 then lg = []
      else lg = [(DEBUG, PageStatus (status_code r))] /\ rs = []
  end.

(* ================================================================== *)
(** * Scenarios of the design document *)

Module Scenario.

Definition parse : bool -> string -> option date := Dateutil.parse 2026.

(** [{"price_prediction":[{"date":"2024-06-01","price":"65000"}]}] *)
Definition priced_entry : pyval :=
  PDict [("date", PStr "2024-06-01"); ("price", PStr "65000")].

Definition api_priced : response :=
  mkresponse 200 "" (Some (PDict [("price_prediction", PList [priced_entry])])) None.

(** A 200 answer of the API with no predictions field: [{}]. *)
Definition api_empty : response := mkresponse 200 "{}" (Some (PDict [])) None.

(** A page whose "price prediction" heading is followed by a block of
    flattened text ["06/01/2024 | $65,000.00"]. *)
Definition block_text : string := "06/01/2024 | $65,000.00".

Definition page_block : response :=
  mkresponse 200 "" None (Some (mktag (Some block_text))).

(** A page without such a heading. *)
Definition page_plain : response := mkresponse 200 "" None None.

(** The source answering [api] on the API path and [page] elsewhere. *)
Definition serve (api page : response) (url : string) : exc response :=
  if String.eqb url (api_url "bitcoin") then Ok api else Ok page.

(** An entry whose date no interpretation can read, then a good one. *)
Definition unreadable_entry : pyval :=
  PDict [("date", PStr "2024-13-45"); ("price", PStr "1")].

Definition api_unreadable_first : response :=
  mkresponse 200 ""
    (Some (PDict [("price_prediction", PList [unreadable_entry; priced_entry])]))
    None.




(** An entry whose date reads day-first only: month 13, day 1. *)
Definition dayfirst_entry : pyval :=
  PDict [("date", PStr "2024-13-01"); ("price", PStr "65000")].

Definition api_dayfirst : response :=
  mkresponse 200 ""
    (Some (PDict [("price_prediction", PList [dayfirst_entry])])) None.

(** A store for the examples: one prediction for 2024-06-01 at 65000.0,
    recorded on 2024-05-01 and not yet evaluated. *)
Definition stored_prediction : prediction_row :=
  mkprow 1 "BTC" "CoinCodex" "2024-05-01" "2024-06-01" 65000.

Definition store_one : conn := mkconn [stored_prediction] [].


(** The price history answering 60000.0 for any day. *)
Definition history_60000 : response :=
  mkresponse 200 ""
    (Some (PDict [("market_data",
                   PDict [("current_price", PDict [("usd", PFloat 60000)])])]))
    None.

End Scenario.

(* ================================================================== *)
(** * Entries of a predictions list, as the design document sorts them *)

(** The value found under either of two key names: the first that is
    present and not empty. *)
Definition first_present (d : list (string * pyval)) (k1 k2 : string)
    : option pyval :=
  let under k :=
    match Py.lookup k d with
    | Some v => if Py.truthy v then Some v else None
    | None => None
    end in
  match under k1 with
  | Some v => Some v
  | None => under k2
  end.

Inductive entry_shape : Type :=
| MissingField                  (* an object with no date or no price *)
| WellFormed (r : prediction)   (* date and price both readable *)
| Unreadable.                   (* anything else *)

Section Shapes.

Variable parser_parse : bool -> string -> option date.
Variable float_of_str : string -> option float.

Definition shape (p : pyval) : entry_shape :=
  match p with
  | PDict d =>
      match first_present d "date" "target_date",
            first_present d "price" "predicted_price" with
      | Some (PStr s), Some pr =>
          match parser_parse false s, Py.to_float float_of_str pr with
          | Some dt, Ok f => WellFormed (mkprediction (isoformat dt) f "CoinCodex")
          | _, _ => Unreadable
          end
      | Some _, Some _ => Unreadable
      | _, _ => MissingField
      end
  | _ => Unreadable
  end.



End Shapes.

(* ================================================================== *)
(** * The store, as the design document speaks of it *)

Definition history_url (gecko : string) (d : date) : string :=
  COINGECKO_BASE ++ "/coins/" ++ gecko ++ "/history?date=" ++ strftime_dmy d.

(** Some row of [results] references the prediction [pid]. *)
Definition has_result (c : conn) (pid : Z) : bool :=
  existsb (fun r => r_prediction_id r =? pid) (tbl_results c).

(** The number of rows of [results] that reference [pid]. *)
Definition count_results (rs : list result_row) (pid : Z) : nat :=
  List.length (filter (fun r => r_prediction_id r =? pid) rs).

(** Invariant: a prediction has zero or one evaluation result. *)
Definition at_most_one_result (c : conn) : Prop :=
  forall pid, (count_results (tbl_results c) pid <= 1)%nat.

(** The primary key of [predictions]. *)
Definition unique_ids (c : conn) : Prop :=
  NoDup (map p_id (tbl_predictions c)).

(** A record carrying the label [label], whose target date is the ISO
    text of a date the parser returned. *)
Definition labelled (parser_parse : bool -> string -> option date)
    (label : string) (r : prediction) : Prop :=
  source r = label
  /\ exists s d, parser_parse false s = Some d /\ target_date r = isoformat d.

(** The text is the ISO form of a calendar date. *)
Definition iso_text (s : string) : Prop :=
  exists t, valid_date t /\ s = isoformat t.

(** Every stored prediction has an ISO target date. *)
Definition iso_targets (c : conn) : Prop :=
  Forall (fun p => iso_text (p_target_date p)) (tbl_predictions c).

(** The id of a due row. *)
Definition due_id (row : due_row) : Z := fst (fst (fst (fst row))).

(** What storing predictions may do to the database: the results are
    untouched and the primary key is kept. *)
Definition only_adds_predictions (c c' : conn) : Prop :=
  tbl_results c' = tbl_results c /\ (unique_ids c -> unique_ids c').

(** The fields of a date that [isoformat] renders without loss. *)
Definition in_range (d : date) : Prop :=
  0 <= year d < 10000 /\ 0 <= month d < 100 /\ 0 <= day d < 100.

(** A run of the examples: the API answers the priced scenario to the
    first call, the price history answers 60000.0 afterwards. *)
Definition example_net (n : nat) (url : string) : exc response :=
  match n with
  | O => Scenario.serve Scenario.api_priced Scenario.page_plain url
  | S _ => Ok Scenario.history_60000
  end.


(* ================================================================== *)
(** * Vocabulary of the further properties *)

(** A prediction row as a run writes it: dated today, for a tracked
    symbol, labelled by one of the two strategies. *)
Definition written_today (today : date) (track : list coin)
    (p : prediction_row) : Prop :=
  p_prediction_date p = isoformat today
  /\ In (p_symbol p) (map symbol track)
  /\ (p_source p = "CoinCodex" \/ p_source p = "CoinCodex-scrape").


(** The primary key of [results]. *)
Definition unique_result_ids (c : conn) : Prop :=
  NoDup (map r_id (tbl_results c)).

(** The words a pattern matches: the declarative reading of [Re.regex]. *)
Fixpoint lang (r : Re.regex) (w : list ascii) {struct r} : Prop :=
  match r with
  | Re.Eps => w = []
  | Re.Class p => exists c, w = [c] /\ p c = true
  | Re.Seq r1 r2 => exists w1 w2, w = (w1 ++ w2)%list /\ lang r1 w1 /\ lang r2 w2
  | Re.Rep lo hi r0 =>
      exists ws,
        w = List.concat ws
        /\ Forall (lang r0) ws
        /\ (lo <= List.length ws)%nat
        /\ match hi with
           | Some h => (List.length ws <= h)%nat
           | None => True
           end
  end.


(** The characters [replace(',', '')] keeps. *)
Definition not_comma (x : ascii) : bool := negb (Ascii.eqb x ",").

(* ================================================================== *)
(** * Properties *)

(** ** The loops of the extractor *)

Ltac unfold_m :=
  unfold bind, lift, ret, try_except, modify, gets, or_raise,
    logging_f, append_result in *.

Section ExtractorFacts.

Variable parser_parse : bool -> string -> option date.
Variable float_of_str : string -> option float.

Local Abbreviation entry := (api_entry parser_parse float_of_str).
Local Abbreviation pair := (scrape_pair parser_parse float_of_str).

(** An API entry raises, is passed over, or appends one record; it
    writes no log record. *)
Lemma api_entry_cases (p : pyval) (s : fetch_state) :
  (exists e, entry p s = (s, Raise e))
  \/ entry p s = (s, Ok tt)
  \/ (exists r, labelled parser_parse "CoinCodex" r
        /\ entry p s = (mkfetch (results s ++ [r]) (fetch_log s), Ok tt)).
Proof.
  unfold api_entry, entry_date. unfold_m.
  destruct (get_either p "date" "target_date") as [dt|e]; [|left; eauto].
  destruct (get_either p "price" "predicted_price") as [pr|e]; [|left; eauto].
  destruct (Py.truthy dt && Py.truthy pr); [|right; left; reflexivity].
  destruct (Py.parse_date parser_parse false dt) as [d|e] eqn:Ed; [|left; eauto].
  destruct (Py.to_float float_of_str pr) as [f|e]; [|left; eauto].
  right; right. eexists; split; [|reflexivity].
  split; [reflexivity|]. destruct dt as [| | | |str| |]; try discriminate Ed.
  cbn in Ed. destruct (parser_parse false str) as [d'|] eqn:Es;
    [|discriminate Ed].
  injection Ed as <-. exists str, d'. split; [exact Es|reflexivity].
Qed.

(** The API loop extends [results] with "CoinCodex" records and leaves
    the log as it is, whether it ends or raises. *)
Lemma api_loop_results (preds : list pyval) (s : fetch_state) :
  exists rs o,
    for_each preds entry s = (mkfetch (results s ++ rs) (fetch_log s), o)
    /\ Forall (labelled parser_parse "CoinCodex") rs.
Proof.
  revert s. induction preds as [|p preds IH]; intros s; cbn [for_each].
  - exists [], (Ok tt). rewrite app_nil_r. destruct s; split; [reflexivity|constructor].
  - unfold bind at 1.
    destruct (api_entry_cases p s) as [[e H]|[H|[r [Hr H]]]]; rewrite H.
    + exists [], (Raise e). rewrite app_nil_r. destruct s; split; [reflexivity|constructor].
    + apply IH.
    + destruct (IH (mkfetch (results s ++ [r]) (fetch_log s))) as [rs [o [E F]]].
      exists (r :: rs), o. cbn [results fetch_log] in E.
      rewrite <- app_assoc in E. split; [exact E|constructor; assumption].
Qed.

(** A scraped pair is passed over or appends one record; it never
    raises and writes no log record. *)
Lemma scrape_pair_cases (ds ps : list string) (i : nat) (s : fetch_state) :
  pair ds ps i s = (s, Ok tt)
  \/ (exists r, labelled parser_parse "CoinCodex-scrape" r
        /\ pair ds ps i s
           = (mkfetch (results s ++ [r]) (fetch_log s), Ok tt)).
Proof.
  unfold scrape_pair. unfold_m.
  destruct (parser_parse false (nth i ds "")) as [d|] eqn:Ed; [|left; reflexivity].
  destruct (float_of_str _) as [f|]; [|left; reflexivity].
  right. eexists; split; [|reflexivity].
  split; [reflexivity|]. exists (nth i ds ""), d. split; [exact Ed|reflexivity].
Qed.

Lemma scrape_loop_results (ds ps : list string) (idx : list nat) (s : fetch_state) :
  exists rs,
    for_each idx (pair ds ps) s
    = (mkfetch (results s ++ rs) (fetch_log s), Ok tt)
    /\ Forall (labelled parser_parse "CoinCodex-scrape") rs.
Proof.
  revert s. induction idx as [|i idx IH]; intros s; cbn [for_each].
  - exists []. rewrite app_nil_r. destruct s; split; [reflexivity|constructor].
  - unfold bind at 1.
    destruct (scrape_pair_cases ds ps i s) as [H|[r [Hr H]]]; rewrite H.
    + apply IH.
    + destruct (IH (mkfetch (results s ++ [r]) (fetch_log s))) as [rs [E F]].
      exists (r :: rs). cbn [results fetch_log] in E.
      rewrite <- app_assoc in E. split; [exact E|constructor; assumption].
Qed.

Lemma scrape_text_results (txt : string) (s : fetch_state) :
  exists rs,
    scrape_text parser_parse float_of_str txt s
    = (mkfetch (results s ++ rs) (fetch_log s), Ok tt)
    /\ Forall (labelled parser_parse "CoinCodex-scrape") rs.
Proof.
  unfold scrape_text.
  destruct (Re.findall Re.date_pattern txt) as [|d ds] eqn:Ed;
    [|destruct (Re.findall Re.price_pattern txt) as [|p ps] eqn:Ep].
  - exists []. rewrite app_nil_r. destruct s; split; [reflexivity|constructor].
  - exists []. rewrite app_nil_r. destruct s; split; [reflexivity|constructor].
  - apply scrape_loop_results.
Qed.

End ExtractorFacts.

(** ** The two strategies *)

Section Strategies.

Variable parser_parse : bool -> string -> option date.
Variable float_of_str : string -> option float.
Variable get : string -> exc response.

Lemma fetch_state_eta (s : fetch_state) :
  mkfetch (results s ++ []) (fetch_log s ++ []) = s.
Proof. destruct s; cbn. now rewrite !app_nil_r. Qed.

Lemma fetch_state_eta_log (s : fetch_state) (rs : list prediction) :
  mkfetch (results s ++ rs) (fetch_log s)
  = mkfetch (results s ++ rs) (fetch_log s ++ []).
Proof. now rewrite app_nil_r. Qed.

(** The first strategy with its handler always ends normally. *)
Lemma api_stage (symbol : string) (s : fetch_state) :
  exists rs lg,
    try_except (api_attempt parser_parse float_of_str get symbol)
      (fun e => logging_f DEBUG (ApiFailed e)) s
    = (mkfetch (results s ++ rs) (fetch_log s ++ lg), Ok tt)
    /\ Forall (labelled parser_parse "CoinCodex") rs
    /\ api_log_ok get symbol rs lg.
Proof.
  unfold api_attempt, api_log_ok. fold (api_url symbol).
  unfold try_except, bind at 1, lift at 1.
  destruct (get (api_url symbol)) as [r|e].
  2:{ exists [], [(DEBUG, ApiFailed e)]. unfold logging_f, modify. cbn.
      rewrite app_nil_r. repeat split; constructor. }
  destruct (status_code r =? 200).
  2:{ exists [], [(DEBUG, ApiStatus (status_code r))].
      unfold logging_f, modify. cbn. rewrite app_nil_r.
      repeat split; constructor. }
  unfold bind at 1, lift at 1, or_raise.
  destruct (json r) as [j|].
  2:{ exists [], [(DEBUG, ApiFailed JSONDecodeError)].
      unfold logging_f, modify. cbn. rewrite app_nil_r.
      repeat split; constructor. }
  assert (Done : exists rs lg,
             (s, @Ok unit tt)
             = (mkfetch (results s ++ rs) (fetch_log s ++ lg), Ok tt)
             /\ Forall (labelled parser_parse "CoinCodex") rs
             /\ (lg = [] \/ exists e, lg = [(DEBUG, ApiFailed e)])).
  { exists [], []. rewrite fetch_state_eta. repeat split; auto. }
  assert (Failed : forall e, exists rs lg,
             logging_f DEBUG (ApiFailed e) s
             = (mkfetch (results s ++ rs) (fetch_log s ++ lg), Ok tt)
             /\ Forall (labelled parser_parse "CoinCodex") rs
             /\ (lg = [] \/ exists e, lg = [(DEBUG, ApiFailed e)])).
  { intros e. exists [], [(DEBUG, ApiFailed e)]. unfold logging_f, modify.
    rewrite app_nil_r. repeat split; eauto. }
  unfold bind at 1, lift at 1.
  destruct (if Py.is_dict j then Py.contains "price_prediction" j else Ok false)
    as [[|]|e]; [|exact Done|apply Failed].
  unfold bind at 1, lift at 1.
  destruct (Py.get j "price_prediction") as [got|e]; [|apply Failed].
  unfold bind at 1, lift at 1.
  destruct (Py.iter _) as [preds|e]; [|apply Failed].
  destruct (api_loop_results parser_parse float_of_str preds s)
    as [rs [o [E F]]].
  rewrite E. destruct o as [[]|e].
  - exists rs, []. rewrite <- fetch_state_eta_log. repeat split; auto.
  - exists rs, [(DEBUG, ApiFailed e)]. unfold logging_f, modify. cbn.
    repeat split; eauto.
Qed.

(** So does the second. *)
Lemma scrape_stage (symbol : string) (s : fetch_state) :
  exists rs lg,
    try_except (scrape_attempt parser_parse float_of_str get symbol)
      (fun e => logging_f DEBUG (ScrapeFailed e)) s
    = (mkfetch (results s ++ rs) (fetch_log s ++ lg), Ok tt)
    /\ Forall (labelled parser_parse "CoinCodex-scrape") rs
    /\ scrape_log_ok get symbol rs lg.
Proof.
  unfold scrape_attempt, scrape_log_ok. fold (page_url symbol).
  unfold try_except, bind at 1, lift at 1.
  destruct (get (page_url symbol)) as [r|e].
  2:{ exists [], [(DEBUG, ScrapeFailed e)]. unfold logging_f, modify. cbn.
      rewrite app_nil_r. repeat split; constructor. }
  destruct (status_code r =? 200).
  2:{ exists [], [(DEBUG, PageStatus (status_code r))].
      unfold logging_f, modify. cbn. rewrite app_nil_r.
      repeat split; constructor. }
  assert (Done : exists rs lg,
             ret tt s
             = (mkfetch (results s ++ rs) (fetch_log s ++ lg), Ok tt)
             /\ Forall (labelled parser_parse "CoinCodex-scrape") rs
             /\ lg = []).
  { exists [], []. unfold ret. rewrite fetch_state_eta. repeat split; auto. }
  destruct (find_heading r) as [candidate|]; [|exact Done].
  destruct (find_next_sibling candidate) as [txt|]; [|exact Done].
  destruct (scrape_text_results parser_parse float_of_str txt s)
    as [rs [E F]].
  rewrite E. exists rs, []. rewrite <- fetch_state_eta_log. repeat split; auto.
Qed.

(** The function as a whole: the records of the first strategy, or,
    when there are none, those of the second; the log of both. *)
Lemma fetch_stages (symbol : string) :
  exists rs1 lg1 rs2 lg2,
    fetch_predictions_from_coincodex parser_parse float_of_str get symbol
    = (Ok (rs1 ++ rs2)%list, (lg1 ++ lg2)%list)
    /\ Forall (labelled parser_parse "CoinCodex") rs1
    /\ api_log_ok get symbol rs1 lg1
    /\ (rs1 <> [] -> rs2 = [] /\ lg2 = [])
    /\ (rs1 = [] ->
        Forall (labelled parser_parse "CoinCodex-scrape") rs2
        /\ scrape_log_ok get symbol rs2 lg2).
Proof.
  unfold fetch_predictions_from_coincodex, fetch_body.
  unfold bind at 1.
  destruct (api_stage symbol (mkfetch [] [])) as [rs1 [lg1 [E1 [F1 L1]]]].
  rewrite E1. cbn [results fetch_log app].
  unfold bind at 1, gets at 1. cbn [results].
  destruct rs1 as [|r1 rs1].
  - destruct (scrape_stage symbol (mkfetch [] lg1)) as [rs2 [lg2 [E2 [F2 L2]]]].
    unfold bind at 1. rewrite E2. cbn.
    exists [], lg1, rs2, lg2. repeat split; auto; congruence.
  - cbn. exists (r1 :: rs1), lg1, [], []. rewrite !app_nil_r.
    repeat split; auto; congruence.
Qed.

End Strategies.

(** C1. On the block text "06/01/2024 | $65,000.00" the fallback returns
    one record dated 2024-06-01 whose price is 6.0, not 65000.0: the
    currency pattern also matches the digit groups of the date, so the
    first numeric token is the "06" of the date itself. *)
Theorem fallback_scrape_pairs_date_with_own_digits :
  Re.findall Re.date_pattern Scenario.block_text = ["06/01/2024"]
  /\ Re.findall Re.price_pattern Scenario.block_text
     = ["06"; "01"; "202"; "4"; "65,000.00"]
  /\ fetch_predictions_from_coincodex Scenario.parse PyFloat.of_decimal
       (Scenario.serve Scenario.api_empty Scenario.page_block) "bitcoin"
     = (Ok [mkprediction "2024-06-01" 6 "CoinCodex-scrape"], []).
Proof. repeat split; vm_compute; reflexivity. Qed.



(** C6, as stated, fails: the record of the structured scenario does not
    carry the label "primary-api". *)
Lemma structured_label_is_not_primary_api :
  fst (fetch_predictions_from_coincodex Scenario.parse PyFloat.of_decimal
         (Scenario.serve Scenario.api_priced Scenario.page_plain) "bitcoin")
  <> Ok [mkprediction "2024-06-01" 65000 "primary-api"].
Proof. vm_compute. intros H. discriminate H. Qed.

(** C6, amended. The structured scenario yields exactly one record,
    2024-06-01 at 65000.0, labelled "CoinCodex"; every record the first
    strategy adds is labelled "CoinCodex" and every record the fallback
    adds is labelled "CoinCodex-scrape". *)
Theorem source_labels :
  fetch_predictions_from_coincodex Scenario.parse PyFloat.of_decimal
    (Scenario.serve Scenario.api_priced Scenario.page_plain) "bitcoin"
  = (Ok [mkprediction "2024-06-01" 65000 "CoinCodex"], [])
  /\ (forall parser_parse float_of_str get symbol s,
        exists rs lg,
          try_except (api_attempt parser_parse float_of_str get symbol)
            (fun e => logging_f DEBUG (ApiFailed e)) s
          = (mkfetch (results s ++ rs) (fetch_log s ++ lg), Ok tt)
          /\ Forall (fun r => source r = "CoinCodex") rs)
  /\ (forall parser_parse float_of_str get symbol s,
        exists rs lg,
          try_except (scrape_attempt parser_parse float_of_str get symbol)
            (fun e => logging_f DEBUG (ScrapeFailed e)) s
          = (mkfetch (results s ++ rs) (fetch_log s ++ lg), Ok tt)
          /\ Forall (fun r => source r = "CoinCodex-scrape") rs).
Proof.
  split; [vm_compute; reflexivity|]. split; intros pp fl get sym s.
  - destruct (api_stage pp fl get sym s) as [rs [lg [E [F _]]]].
    exists rs, lg. split; [exact E|].
    eapply Forall_impl; [|exact F]. intros r [L _]. exact L.
  - destruct (scrape_stage pp fl get sym s) as [rs [lg [E [F _]]]].
    exists rs, lg. split; [exact E|].
    eapply Forall_impl; [|exact F]. intros r [L _]. exact L.
Qed.

(** ** Entries of the structured strategy *)

Section Entries.

Variable parser_parse : bool -> string -> option date.
Variable float_of_str : string -> option float.


Lemma get_either_first_present (d : list (string * pyval)) (k1 k2 : string) :
  get_either (PDict d) k1 k2
  = Ok (match first_present d k1 k2 with Some v => v | None => PNone end).
Proof.
  unfold get_either, first_present, Py.get.
  destruct (Py.lookup k1 d) as [a|]; cbn [Py.truthy].
  - destruct (Py.truthy a); [reflexivity|].
    destruct (Py.lookup k2 d) as [b|]; [destruct (Py.truthy b)|]; reflexivity.
  - destruct (Py.lookup k2 d) as [b|]; [destruct (Py.truthy b)|]; reflexivity.
Qed.




End Entries.

(** C7. An entry with an unparseable date is not skipped by itself:
    [parser.parse] raises out of the [for] loop of the structured strategy
    (lines 89-98 have no guard of their own, whereas the fallback guards
    each pair, lines 129-137), the handler of the strategy logs the failure
    at DEBUG, and the well-formed entry after it is not in the result. *)
Lemma unreadable_entry_drops_later_siblings :
  shape Scenario.parse PyFloat.of_decimal Scenario.unreadable_entry = Unreadable
  /\ shape Scenario.parse PyFloat.of_decimal Scenario.priced_entry
     = WellFormed (mkprediction "2024-06-01" 65000 "CoinCodex")
  /\ fetch_predictions_from_coincodex Scenario.parse PyFloat.of_decimal
       (Scenario.serve Scenario.api_unreadable_first Scenario.page_plain)
       "bitcoin"
     = (Ok [], [(DEBUG, ApiFailed ParserError)]).
Proof. repeat split; vm_compute; reflexivity. Qed.



(** C8. The second attempt passes [dayfirst=False] like the first: a date
    that reads day-first only, "2024-13-01", is not parsed; the entry
    raises and the structured strategy yields nothing. *)
Theorem second_date_attempt_is_month_first :
  Dateutil.parse 2026 false "2024-13-01" = None
  /\ Dateutil.parse 2026 true "2024-13-01" = Some (mkdate 2024 1 13)
  /\ entry_date Scenario.parse (PStr "2024-13-01") (mkfetch [] [])
     = (mkfetch [] [], Raise ParserError)
  /\ fetch_predictions_from_coincodex Scenario.parse PyFloat.of_decimal
       (Scenario.serve Scenario.api_dayfirst Scenario.page_plain) "bitcoin"
     = (Ok [], [(DEBUG, ApiFailed ParserError)]).
Proof. repeat split; vm_compute; reflexivity. Qed.

(* ================================================================== *)
(** ** ISO dates as text *)

Module IsoText.

Lemma digit_cases (d : Z) :
  0 <= d < 10 ->
  d = 0 \/ d = 1 \/ d = 2 \/ d = 3 \/ d = 4 \/ d = 5 \/ d = 6 \/ d = 7
  \/ d = 8 \/ d = 9.
Proof. lia. Qed.

Lemma is_digit_digit_char (d : Z) :
  0 <= d < 10 -> Str.is_digit (Str.digit_char d) = true.
Proof.
  intros H. destruct (digit_cases d H) as [E|[E|[E|[E|[E|[E|[E|[E|[E|E]]]]]]]]];
    subst d; reflexivity.
Qed.

Lemma digit_val_digit_char (d : Z) :
  0 <= d < 10 -> Str.digit_val (Str.digit_char d) = d.
Proof.
  intros H. destruct (digit_cases d H) as [E|[E|[E|[E|[E|[E|[E|[E|[E|E]]]]]]]]];
    subst d; reflexivity.
Qed.

Lemma code_digit_char (d : Z) :
  0 <= d < 10 -> Str.code (Str.digit_char d) = Z.to_N (48 + d).
Proof.
  intros H. destruct (digit_cases d H) as [E|[E|[E|[E|[E|[E|[E|[E|[E|E]]]]]]]]];
    subst d; reflexivity.
Qed.

(** Digit characters are ordered as their values. *)
Lemma compare_digit_char (x y : Z) :
  0 <= x < 10 -> 0 <= y < 10 ->
  Ascii.compare (Str.digit_char x) (Str.digit_char y) = (x ?= y).
Proof.
  intros Hx Hy. unfold Ascii.compare. fold (Str.code (Str.digit_char x)).
  fold (Str.code (Str.digit_char y)). rewrite !code_digit_char by assumption.
  rewrite Z2N.inj_compare by lia.
  destruct (Z.compare_spec x y), (Z.compare_spec (48 + x) (48 + y));
    try reflexivity; lia.
Qed.

Lemma append_assoc (a b c : string) : ((a ++ b) ++ c = a ++ (b ++ c))%string.
Proof. induction a as [|x a IH]; cbn; [reflexivity|now rewrite IH]. Qed.

Lemma append_nil_r (a : string) : (a ++ "" = a)%string.
Proof. induction a as [|x a IH]; cbn; [reflexivity|now rewrite IH]. Qed.

(** Splitting a comparison of two numbers into the tens and the units. *)
Lemma compare_div_mod (a b : Z) (c : comparison) :
  match a / 10 ?= b / 10 with
  | Eq => match a mod 10 ?= b mod 10 with Eq => c | Lt => Lt | Gt => Gt end
  | Lt => Lt
  | Gt => Gt
  end
  = match a ?= b with Eq => c | Lt => Lt | Gt => Gt end.
Proof.
  pose proof (Z.div_mod a 10 ltac:(lia)) as Ha.
  pose proof (Z.div_mod b 10 ltac:(lia)) as Hb.
  pose proof (Z.mod_pos_bound a 10 ltac:(lia)) as Ra.
  pose proof (Z.mod_pos_bound b 10 ltac:(lia)) as Rb.
  destruct (Z.compare_spec (a / 10) (b / 10));
    destruct (Z.compare_spec (a mod 10) (b mod 10));
    destruct (Z.compare_spec a b); try reflexivity; lia.
Qed.

Lemma mod_split (a n : Z) :
  0 < n ->
  (a mod (10 * n)) / 10 = (a / 10) mod n
  /\ (a mod (10 * n)) mod 10 = a mod 10.
Proof.
  intros Hn. rewrite Z.rem_mul_r by lia.
  pose proof (Z.mod_pos_bound a 10 ltac:(lia)).
  split.
  - rewrite Z.add_comm, Z.mul_comm, Z.div_add_l by lia.
    rewrite (Z.div_small (a mod 10)) by lia. lia.
  - rewrite Z.mul_comm, Z.mod_add by lia.
    apply Z.mod_mod. lia.
Qed.

(** Zero-padded numbers of one width are ordered, as text, as the
    numbers are. *)
Lemma compare_pad (w : nat) :
  forall (a b : Z) (s t : string),
    0 <= a -> 0 <= b ->
    String.compare (Str.pad w a ++ s) (Str.pad w b ++ t)
    = match Z.compare (a mod 10 ^ Z.of_nat w) (b mod 10 ^ Z.of_nat w) with
      | Eq => String.compare s t
      | Lt => Lt
      | Gt => Gt
      end.
Proof.
  induction w as [|w IH]; intros a b s t Ha Hb.
  - cbn [Str.pad append Z.of_nat]. rewrite !Z.pow_0_r, !Z.mod_1_r. reflexivity.
  - cbn [Str.pad]. rewrite !append_assoc.
    rewrite IH by (apply Z.div_pos; lia).
    cbn [append String.compare].
    rewrite compare_digit_char by (apply Z.mod_pos_bound; lia).
    rewrite Nat2Z.inj_succ, Z.pow_succ_r by lia.
    assert (P : 0 < 10 ^ Z.of_nat w) by (apply Z.pow_pos_nonneg; lia).
    rewrite <- (compare_div_mod (a mod (10 * 10 ^ Z.of_nat w))
                  (b mod (10 * 10 ^ Z.of_nat w))).
    destruct (mod_split a _ P) as [-> ->].
    destruct (mod_split b _ P) as [-> ->].
    reflexivity.
Qed.

End IsoText.

Module IsoDate.

Import IsoText.

Lemma valid_in_range (d : date) : valid_date d -> in_range d.
Proof.
  unfold valid_date, valid_dateb, in_range, days_in_month. intros H.
  repeat (apply andb_true_iff in H; destruct H as [H ?]).
  destruct (month d =? 2), (is_leap (year d)),
    ((month d =? 4) || (month d =? 6) || (month d =? 9) || (month d =? 11));
    lia.
Qed.

Lemma compare_isoformat (a b : date) :
  in_range a -> in_range b ->
  String.compare (isoformat a) (isoformat b)
  = match year a ?= year b with
    | Eq => match month a ?= month b with
            | Eq => day a ?= day b
            | Lt => Lt
            | Gt => Gt
            end
    | Lt => Lt
    | Gt => Gt
    end.
Proof.
  intros (Ya & Ma & Da) (Yb & Mb & Db). unfold isoformat.
  rewrite compare_pad by lia. change (10 ^ Z.of_nat 4) with 10000.
  rewrite !Z.mod_small by lia.
  destruct (year a ?= year b); try reflexivity.
  cbn [append String.compare]. change (Ascii.compare "-" "-") with Eq. cbv iota.
  rewrite compare_pad by lia. change (10 ^ Z.of_nat 2) with 100.
  rewrite !Z.mod_small by lia.
  destruct (month a ?= month b); try reflexivity.
  cbn [append String.compare]. change (Ascii.compare "-" "-") with Eq. cbv iota.
  rewrite <- (append_nil_r (Str.pad 2 (day a))), <- (append_nil_r (Str.pad 2 (day b))).
  rewrite compare_pad by lia. change (10 ^ Z.of_nat 2) with 100.
  rewrite !Z.mod_small by lia.
  destruct (day a ?= day b); reflexivity.
Qed.

(** The text order of ISO dates is the order of the calendar. *)
Lemma leb_isoformat (a b : date) :
  in_range a -> in_range b ->
  String.leb (isoformat a) (isoformat b) = date_leb a b.
Proof.
  intros Ha Hb. unfold String.leb. rewrite compare_isoformat by assumption.
  unfold date_leb.
  destruct (Z.compare_spec (year a) (year b)) as [Ey|Ly|Gy].
  - rewrite Ey, Z.ltb_irrefl, Z.eqb_refl. cbn [orb andb].
    destruct (Z.compare_spec (month a) (month b)) as [Em|Lm|Gm].
    + rewrite Em, Z.ltb_irrefl, Z.eqb_refl. cbn [orb andb].
      destruct (Z.compare_spec (day a) (day b)); symmetry;
        [apply Z.leb_le|apply Z.leb_le|apply Z.leb_gt]; lia.
    + apply Z.ltb_lt in Lm. now rewrite Lm.
    + assert ((month a <? month b) = false) as -> by (apply Z.ltb_ge; lia).
      assert ((month a =? month b) = false) as -> by (apply Z.eqb_neq; lia).
      reflexivity.
  - apply Z.ltb_lt in Ly. now rewrite Ly.
  - assert ((year a <? year b) = false) as -> by (apply Z.ltb_ge; lia).
    assert ((year a =? year b) = false) as -> by (apply Z.eqb_neq; lia).
    reflexivity.
Qed.

Lemma read_ymd_isoformat (a : date) :
  in_range a -> read_ymd (isoformat a) = Some (year a, month a, day a).
Proof.
  intros (Y & Mo & D). unfold read_ymd, isoformat.
  cbn [Str.pad append Str.chars list_ascii_of_string forallb].
  rewrite !is_digit_digit_char by (apply Z.mod_pos_bound; lia).
  change (Ascii.eqb "-" "-") with true. cbn [andb].
  unfold Str.to_Z. cbn [fold_left].
  rewrite !digit_val_digit_char by (apply Z.mod_pos_bound; lia).
  f_equal. f_equal; [f_equal|].
  - pose proof (Z.div_mod (year a) 10 ltac:(lia)).
    pose proof (Z.div_mod (year a / 10) 10 ltac:(lia)).
    pose proof (Z.div_mod (year a / 10 / 10) 10 ltac:(lia)).
    assert (year a / 10 / 10 / 10 < 10)
      by (rewrite !Z.div_div by lia; apply Z.div_lt_upper_bound; lia).
    assert (0 <= year a / 10 / 10 / 10)
      by (rewrite !Z.div_div by lia; apply Z.div_pos; lia).
    rewrite (Z.mod_small (year a / 10 / 10 / 10)) by lia. lia.
  - pose proof (Z.div_mod (month a) 10 ltac:(lia)).
    assert (month a / 10 < 10) by (apply Z.div_lt_upper_bound; lia).
    assert (0 <= month a / 10) by (apply Z.div_pos; lia).
    rewrite (Z.mod_small (month a / 10)) by lia. lia.
  - pose proof (Z.div_mod (day a) 10 ltac:(lia)).
    assert (day a / 10 < 10) by (apply Z.div_lt_upper_bound; lia).
    assert (0 <= day a / 10) by (apply Z.div_pos; lia).
    rewrite (Z.mod_small (day a / 10)) by lia. lia.
Qed.

(** [fromisoformat] reads back what [isoformat] writes. *)
Lemma fromisoformat_isoformat (a : date) :
  valid_date a -> fromisoformat (isoformat a) = Some a.
Proof.
  intros V. unfold fromisoformat.
  rewrite read_ymd_isoformat by (apply valid_in_range; exact V).
  unfold make_date. destruct a as [y m d]. cbn [year month day].
  unfold valid_date in V. now rewrite V.
Qed.

(** SQLite's [DATE] leaves a stored ISO date as it is. *)
Lemma DATE_isoformat (a : date) :
  valid_date a -> Sql.DATE (isoformat a) = Some (isoformat a).
Proof.
  intros V. unfold Sql.DATE.
  rewrite read_ymd_isoformat by (apply valid_in_range; exact V).
  unfold valid_date, valid_dateb in V.
  repeat (apply andb_true_iff in V; destruct V as [V ?]).
  assert (day a <= 31).
  { unfold days_in_month in *.
    destruct (month a =? 2), (is_leap (year a)),
      ((month a =? 4) || (month a =? 6) || (month a =? 9) || (month a =? 11));
      lia. }
  assert ((1 <=? month a) = true) as -> by lia.
  assert ((month a <=? 12) = true) as -> by lia.
  assert ((1 <=? day a) = true) as -> by lia.
  assert ((day a <=? 31) = true) as -> by lia.
  cbn [andb]. destruct a; reflexivity.
Qed.

End IsoDate.

(* ================================================================== *)
(** ** The due query *)

Lemma existsb_filter {A : Type} (g : A -> bool) (l : list A) :
  existsb g l = match filter g l with [] => false | _ :: _ => true end.
Proof.
  induction l as [|x l IH]; cbn; [reflexivity|].
  destruct (g x); [reflexivity|exact IH].
Qed.

Lemma filter_joined_rows (p : prediction_row) (f : prediction_row -> bool)
    (ms : list result_row) :
  filter
    (fun pr : prediction_row * option result_row =>
       match snd pr with None => true | Some _ => false end && f (fst pr))
    (map (fun r => (p, Some r)) ms)
  = [].
Proof. induction ms as [|m ms IH]; cbn; [reflexivity|exact IH]. Qed.

(** The LEFT JOIN filtered on [r.id IS NULL] is an anti-join: the
    predictions no result references, each once, in table order. *)
Lemma anti_join (ps : list prediction_row) (rs : list result_row)
    (f : prediction_row -> bool) :
  map fst
    (filter
       (fun pr : prediction_row * option result_row =>
          match snd pr with None => true | Some _ => false end && f (fst pr))
       (Sql.left_join ps rs))
  = filter
      (fun p => negb (existsb (fun r => r_prediction_id r =? p_id p) rs) && f p)
      ps.
Proof.
  induction ps as [|p ps IH]; [reflexivity|].
  unfold Sql.left_join in *. cbn [flat_map].
  rewrite filter_app, map_app, IH. cbn [filter].
  rewrite existsb_filter.
  destruct (filter (fun r => r_prediction_id r =? p_id p) rs) as [|m ms].
  - cbn. destruct (f p); reflexivity.
  - rewrite (filter_joined_rows p f (m :: ms)). reflexivity.
Qed.

(** The rows of the query, without the join. *)
Lemma find_due_as_filter (today : date) (c : conn) (as_of : string) :
  find_due_predictions today c (Some as_of)
  = map select_due
      (filter
         (fun p =>
            negb (has_result c (p_id p))
            && Sql.is_true
                 (Sql.le (Sql.DATE (p_target_date p)) (Sql.DATE as_of)))
         (tbl_predictions c)).
Proof.
  unfold find_due_predictions, has_result.
  rewrite <- (anti_join (tbl_predictions c) (tbl_results c)
                (fun p => Sql.is_true
                            (Sql.le (Sql.DATE (p_target_date p)) (Sql.DATE as_of)))).
  rewrite map_map. reflexivity.
Qed.

Lemma has_result_false (c : conn) (pid : Z) :
  has_result c pid = false
  <-> forall r, In r (tbl_results c) -> r_prediction_id r <> pid.
Proof.
  unfold has_result. split.
  - intros H r Hr E.
    assert (existsb (fun r => r_prediction_id r =? pid) (tbl_results c) = true).
    { apply existsb_exists. exists r. split; [exact Hr|]. now apply Z.eqb_eq. }
    congruence.
  - intros H. destruct (existsb _ _) eqn:E; [|reflexivity].
    apply existsb_exists in E as [r [Hr E]]. apply Z.eqb_eq in E.
    now destruct (H r Hr).
Qed.

(** A due prediction has no result. *)
Lemma due_has_no_result (today : date) (c : conn) (as_of : string) (row : due_row) :
  In row (find_due_predictions today c (Some as_of)) ->
  has_result c (due_id row) = false.
Proof.
  rewrite find_due_as_filter, in_map_iff. intros [p [<- Hp]].
  apply filter_In in Hp as [_ Hc]. apply andb_true_iff in Hc as [Hc _].
  apply negb_true_iff in Hc. exact Hc.
Qed.

(** C2. A stored prediction (its target date written by [isoformat]) is
    among the due rows for the cut-off date D exactly when its target date
    is not after D and no row of [results] references it; and whatever the
    cut-off argument is, a prediction some result references is not among
    them. *)
Theorem due_iff_not_after_and_unevaluated (today : date) (c : conn)
    (p : prediction_row) (t : date) :
  In p (tbl_predictions c) ->
  p_target_date p = isoformat t ->
  valid_date t ->
  (forall D, valid_date D ->
     In (select_due p) (find_due_predictions today c (Some (isoformat D)))
     <-> date_leb t D = true
         /\ (forall r, In r (tbl_results c) -> r_prediction_id r <> p_id p))
  /\ (forall as_of r,
        In r (tbl_results c) -> r_prediction_id r = p_id p ->
        ~ In (select_due p) (find_due_predictions today c as_of)).
Proof.
  intros Hp Ht Vt. split.
  - intros D VD. rewrite find_due_as_filter, in_map_iff.
    assert (Cond : forall q, p_id q = p_id p ->
              p_target_date q = p_target_date p ->
              (negb (has_result c (p_id q))
               && Sql.is_true
                    (Sql.le (Sql.DATE (p_target_date q)) (Sql.DATE (isoformat D)))
               = true)
              <-> date_leb t D = true
                  /\ (forall r, In r (tbl_results c) ->
                                r_prediction_id r <> p_id p)).
    { intros q Eid Etd. rewrite Eid, Etd, Ht.
      rewrite !IsoDate.DATE_isoformat by assumption. cbn [Sql.le Sql.is_true].
      rewrite IsoDate.leb_isoformat by (apply IsoDate.valid_in_range; assumption).
      rewrite andb_true_iff, negb_true_iff, has_result_false.
      destruct (date_leb t D); intuition congruence. }
    split.
    + intros [q [Eq Hq]]. apply filter_In in Hq as [Hin Hc].
      unfold select_due in Eq. injection Eq as E1 E2 E3 E4 E5.
      apply (Cond q E1 E4). exact Hc.
    + intros H. exists p. split; [reflexivity|]. apply filter_In.
      split; [exact Hp|]. apply (Cond p eq_refl eq_refl). exact H.
  - intros as_of r Hr Er Hin.
    assert (Hdue : has_result c (due_id (select_due p)) = false).
    { destruct as_of as [d|].
      - exact (due_has_no_result today c d _ Hin).
      - exact (due_has_no_result today c (isoformat today) _ Hin). }
    apply has_result_false with (r := r) in Hdue; [|exact Hr].
    apply Hdue. exact Er.
Qed.

(** C10. With no cut-off date the query is the one for today's date. *)
Theorem default_cutoff_is_today (today : date) (c : conn) :
  find_due_predictions today c None
  = find_due_predictions today c (Some (isoformat today)).
Proof. reflexivity. Qed.

Lemma due_iff_not_after_and_unevaluated_witness :
  (forall D, valid_date D ->
     In (select_due Scenario.stored_prediction)
       (find_due_predictions (mkdate 2026 11 4) Scenario.store_one
          (Some (isoformat D)))
     <-> date_leb (mkdate 2024 6 1) D = true
         /\ (forall r, In r (tbl_results Scenario.store_one) ->
                       r_prediction_id r <> p_id Scenario.stored_prediction))
  /\ (forall as_of r,
        In r (tbl_results Scenario.store_one) ->
        r_prediction_id r = p_id Scenario.stored_prediction ->
        ~ In (select_due Scenario.stored_prediction)
            (find_due_predictions (mkdate 2026 11 4) Scenario.store_one as_of)).
Proof.
  exact (due_iff_not_after_and_unevaluated (mkdate 2026 11 4) Scenario.store_one
           Scenario.stored_prediction (mkdate 2024 6 1)
           (or_introl eq_refl) eq_refl eq_refl).
Defined.

(* ================================================================== *)
(** ** The price lookup *)

(** C4. The request of the lookup is not guarded: when it fails (a
    time-out, a refused connection) the exception leaves the function, no
    warning is logged and nothing is returned. *)
Theorem lookup_propagates_request_failure
    (float_of_str : string -> option float) (get : string -> exc response)
    (gecko target : string) (d : date) (e : exn) (lg : list log_record) :
  fromisoformat target = Some d ->
  get (history_url gecko d) = Raise e ->
  get_actual_price_from_coingecko float_of_str get gecko target lg
  = (lg, Raise e).
Proof.
  intros Hd Hg. unfold get_actual_price_from_coingecko.
  fold (history_url gecko d).
  unfold bind at 1, lift at 1, or_raise. rewrite Hd.
  fold (history_url gecko d). unfold bind at 1, lift at 1. rewrite Hg.
  reflexivity.
Qed.

Lemma lookup_propagates_request_failure_witness :
  get_actual_price_from_coingecko PyFloat.of_decimal (fun _ => Raise Timeout)
    "bitcoin" "2024-06-01" []
  = ([], Raise Timeout).
Proof.
  exact (lookup_propagates_request_failure PyFloat.of_decimal
           (fun _ => Raise Timeout) "bitcoin" "2024-06-01" (mkdate 2024 6 1)
           Timeout [] eq_refl eq_refl).
Defined.

(** The other failures named by the design are handled as it says: a
    status other than 200 gives [None] and one warning with the status
    and the first 200 characters of the body. *)
Lemma lookup_non_success_is_absent
    (float_of_str : string -> option float) (get : string -> exc response)
    (gecko target : string) (d : date) (r : response) (lg : list log_record) :
  fromisoformat target = Some d ->
  get (history_url gecko d) = Ok r ->
  status_code r <> 200 ->
  get_actual_price_from_coingecko float_of_str get gecko target lg
  = ((lg ++ [(WARNING,
              HistoryFailed gecko target (status_code r) (Str.take 200 (text r)))])%list,
     Ok None).
Proof.
  intros Hd Hg Hs. unfold get_actual_price_from_coingecko.
  unfold bind at 1, lift at 1, or_raise. rewrite Hd.
  fold (history_url gecko d). unfold bind at 1, lift at 1. rewrite Hg.
  unfold bind at 1, history_price.
  apply Z.eqb_neq in Hs. rewrite Hs. reflexivity.
Qed.

(** So is a 200 answer that is a JSON object without [market_data]. *)
Lemma lookup_missing_market_data_is_absent
    (float_of_str : string -> option float) (get : string -> exc response)
    (gecko target : string) (d : date) (r : response)
    (j : list (string * pyval)) (lg : list log_record) :
  fromisoformat target = Some d ->
  get (history_url gecko d) = Ok r ->
  json r = Some (PDict j) ->
  Py.lookup "market_data" j = None ->
  get_actual_price_from_coingecko float_of_str get gecko target lg
  = ((lg ++ [(WARNING,
              HistoryFailed gecko target (status_code r) (Str.take 200 (text r)))])%list,
     Ok None).
Proof.
  intros Hd Hg Hj Hm. unfold get_actual_price_from_coingecko.
  unfold bind at 1, lift at 1, or_raise. rewrite Hd.
  fold (history_url gecko d). unfold bind at 1, lift at 1. rewrite Hg.
  unfold bind at 1, history_price.
  destruct (status_code r =? 200); [|reflexivity].
  unfold bind, lift, or_raise, ret. rewrite Hj. cbn [Py.get]. rewrite Hm.
  reflexivity.
Qed.

(* ================================================================== *)
(** ** Evaluation of one due prediction *)




(* ================================================================== *)
(** ** One run and the results table *)

Lemma le_fold_max (rest : list Z) (i0 x : Z) :
  In x (i0 :: rest) -> x <= fold_right Z.max i0 rest.
Proof.
  induction rest as [|y rest IH]; intros Hx.
  - destruct Hx as [E|[]]. cbn. lia.
  - cbn [fold_right]. destruct Hx as [E|[E|Hx]].
    + pose proof (IH (or_introl E)). lia.
    + lia.
    + pose proof (IH (or_intror Hx)). lia.
Qed.

Lemma next_rowid_above (ids : list Z) (i : Z) :
  In i ids -> i < next_rowid ids.
Proof.
  destruct ids as [|i0 rest]; [intros []|]. unfold next_rowid.
  intros Hi. pose proof (le_fold_max rest i0 i Hi). lia.
Qed.

(** What a successful insert into [predictions] returns. *)
Lemma insert_prediction_ok (c c' : conn) (sym src pd td : string) (pp : float)
    (id : Z) :
  insert_prediction c sym src pd td pp = Ok (c', id) ->
  PrimFloat.is_nan pp = false
  /\ id = next_rowid (map p_id (tbl_predictions c))
  /\ c' = mkconn
            (tbl_predictions c
             ++ [mkprow id sym src pd td (if (pp =? 0)%float then 0%float else pp)])
            (tbl_results c).
Proof.
  unfold insert_prediction, bind_real.
  destruct (PrimFloat.is_nan pp); [discriminate|].
  destruct (pp =? 0)%float; intros E; injection E as <- <-; auto.
Qed.

(** An insert into [predictions] fails with an integrity error only. *)
Lemma insert_prediction_raises (c : conn) (sym src pd td : string) (pp : float)
    (e : exn) :
  insert_prediction c sym src pd td pp = Raise e ->
  e = IntegrityError /\ PrimFloat.is_nan pp = true.
Proof.
  unfold insert_prediction, bind_real.
  destruct (PrimFloat.is_nan pp); [|destruct (pp =? 0)%float; discriminate].
  intros E. injection E as <-. auto.
Qed.

(** The key given to a new prediction is not in use. *)
Lemma insert_prediction_unique (c c' : conn) (sym src pd td : string)
    (pp : float) (id : Z) :
  insert_prediction c sym src pd td pp = Ok (c', id) ->
  unique_ids c -> unique_ids c'.
Proof.
  intros E. apply insert_prediction_ok in E as (_ & -> & ->).
  unfold unique_ids. cbn [tbl_predictions].
  intros H. rewrite map_app. cbn [map p_id].
  apply NoDup_app; [exact H|repeat constructor; intros []|].
  intros a Ha [<-|[]]. apply next_rowid_above in Ha. lia.
Qed.

Lemma NoDup_map_filter {A B : Type} (g : A -> B) (f : A -> bool) (l : list A) :
  NoDup (map g l) -> NoDup (map g (filter f l)).
Proof.
  induction l as [|x l IH]; cbn; [auto|]. intros H. inversion H as [|? ? Hn Hl]; subst.
  destruct (f x); [|auto]. cbn. constructor; [|auto].
  intros Hin. apply Hn. apply in_map_iff in Hin as [y [E Hy]].
  apply filter_In in Hy as [Hy _]. apply in_map_iff. eauto.
Qed.

(** Under the primary key, no prediction is due twice. *)
Lemma due_ids_unique (today : date) (c : conn) (as_of : string) :
  unique_ids c ->
  NoDup (map due_id (find_due_predictions today c (Some as_of))).
Proof.
  intros H. rewrite find_due_as_filter, map_map.
  change (fun x => due_id (select_due x)) with p_id.
  apply NoDup_map_filter. exact H.
Qed.

Lemma count_results_app (rs new : list result_row) (pid : Z) :
  count_results (rs ++ new) pid
  = (count_results rs pid + count_results new pid)%nat.
Proof. unfold count_results. now rewrite filter_app, length_app. Qed.

Lemma count_results_unique (new : list result_row) (pid : Z) :
  NoDup (map r_prediction_id new) -> (count_results new pid <= 1)%nat.
Proof.
  unfold count_results. induction new as [|r new IH]; cbn; [lia|].
  intros H. inversion H as [|? ? Hn Hl]; subst.
  destruct (r_prediction_id r =? pid) eqn:E; [|auto].
  apply Z.eqb_eq in E. cbn.
  assert (Z : filter (fun r0 => r_prediction_id r0 =? pid) new = []).
  { destruct (filter _ new) as [|x xs] eqn:F; [reflexivity|].
    assert (Hx : In x (filter (fun r0 => r_prediction_id r0 =? pid) new))
      by (rewrite F; left; reflexivity).
    apply filter_In in Hx as [Hx Ex]. apply Z.eqb_eq in Ex.
    destruct Hn. apply in_map_iff. exists x. split; [congruence|exact Hx]. }
  rewrite Z. cbn. lia.
Qed.

Lemma count_results_zero (rs : list result_row) (pid : Z) :
  existsb (fun r => r_prediction_id r =? pid) rs = false ->
  count_results rs pid = O.
Proof.
  unfold count_results. rewrite existsb_filter.
  destruct (filter _ rs); [reflexivity|discriminate].
Qed.

(** The invariant survives new rows that reference distinct predictions,
    none of which had a result. *)
Lemma at_most_one_result_extended (c c' : conn) (new : list result_row) :
  at_most_one_result c ->
  tbl_results c' = (tbl_results c ++ new)%list ->
  NoDup (map r_prediction_id new) ->
  (forall r, In r new -> has_result c (r_prediction_id r) = false) ->
  at_most_one_result c'.
Proof.
  intros Inv E Hd Hn pid. rewrite E, count_results_app.
  pose proof (Inv pid) as H1. pose proof (count_results_unique new pid Hd) as H2.
  destruct (count_results new pid) as [|n] eqn:Cn; [lia|].
  assert (Hz : count_results (tbl_results c) pid = O); [|lia].
  unfold count_results in Cn.
  destruct (filter (fun r => r_prediction_id r =? pid) new) as [|x xs] eqn:F;
    [discriminate|].
  assert (Hx : In x (filter (fun r => r_prediction_id r =? pid) new))
    by (rewrite F; left; reflexivity).
  apply filter_In in Hx as [Hx Ex]. apply Z.eqb_eq in Ex.
  apply count_results_zero. specialize (Hn x Hx). rewrite Ex in Hn. exact Hn.
Qed.

Section RunFacts.

Variable parser_parse : bool -> string -> option date.
Variable float_of_str : string -> option float.
Variable net : nat -> string -> exc response.
Variable today : date.

Lemma only_adds_refl (c : conn) : only_adds_predictions c c.
Proof. split; auto. Qed.

Lemma only_adds_trans (a b c : conn) :
  only_adds_predictions a b -> only_adds_predictions b c ->
  only_adds_predictions a c.
Proof. intros [E1 U1] [E2 U2]. split; [congruence|auto]. Qed.

Lemma call_fetch_returns (gecko : string) (s : run_state) :
  exists preds lg,
    call_fetch parser_parse float_of_str net gecko s
    = (mkrun (db s) (run_log s ++ lg) (S (calls s)), Ok preds).
Proof.
  unfold call_fetch.
  destruct (fetch_stages parser_parse float_of_str (net (calls s)) gecko)
    as [rs1 [lg1 [rs2 [lg2 [E _]]]]].
  rewrite E. eauto.
Qed.

(** Storing one prediction: the row is written, or the insert fails
    on the price and the database is as before. *)
Lemma store_prediction_effect (sym iso : string) (p : prediction)
    (s : run_state) :
  exists s' o,
    store_prediction sym iso p s = (s', o)
    /\ only_adds_predictions (db s) (db s')
    /\ (o = Ok tt \/ o = Raise IntegrityError).
Proof.
  unfold store_prediction, bind, logging_r, modify.
  destruct (insert_prediction (db s) sym (source p) iso (target_date p)
              (predicted_price p)) as [[c' id]|e] eqn:E.
  - eexists. eexists. split; [reflexivity|]. cbn [db]. split; [|auto].
    split; [|exact (insert_prediction_unique _ _ _ _ _ _ _ _ E)].
    apply insert_prediction_ok in E as (_ & _ & ->). reflexivity.
  - apply insert_prediction_raises in E as [-> _].
    eexists. eexists. split; [reflexivity|].
    split; [apply only_adds_refl|auto].
Qed.

(** A loop whose passes only add predictions, and fail with an integrity
    error only, does the same. *)
Lemma adding_loop {X : Type} (body : X -> M run_state unit) (l : list X) :
  (forall x s, exists s' o,
      body x s = (s', o)
      /\ only_adds_predictions (db s) (db s')
      /\ (o = Ok tt \/ o = Raise IntegrityError)) ->
  forall s, exists s' o,
    for_each l body s = (s', o)
    /\ only_adds_predictions (db s) (db s')
    /\ (o = Ok tt \/ o = Raise IntegrityError).
Proof.
  intros Hb. induction l as [|x l IH]; intros s.
  - exists s, (Ok tt). split; [reflexivity|]. split; [apply only_adds_refl|auto].
  - cbn [for_each]. unfold bind.
    destruct (Hb x s) as (s1 & o1 & E1 & A1 & [->| ->]); rewrite E1.
    + destruct (IH s1) as (s' & o & E & A & O). exists s', o.
      split; [exact E|]. split; [|exact O].
      eapply only_adds_trans; eassumption.
    + exists s1, (Raise IntegrityError). split; [reflexivity|]. auto.
Qed.

Lemma store_loop (sym iso : string) (preds : list prediction) (s : run_state) :
  exists s' o,
    for_each preds (store_prediction sym iso) s = (s', o)
    /\ only_adds_predictions (db s) (db s')
    /\ (o = Ok tt \/ o = Raise IntegrityError).
Proof. apply adding_loop. apply store_prediction_effect. Qed.

Lemma fetch_coin_effect (iso : string) (c : coin) (s : run_state) :
  exists s' o,
    fetch_coin parser_parse float_of_str net iso c s = (s', o)
    /\ only_adds_predictions (db s) (db s')
    /\ (o = Ok tt \/ o = Raise IntegrityError).
Proof.
  unfold fetch_coin. unfold bind at 1, logging_r at 1, modify.
  unfold bind at 1.
  match goal with
  | |- context [call_fetch _ _ _ _ ?S0] =>
      destruct (call_fetch_returns (gecko_id c) S0) as [preds [lg E]]; rewrite E
  end.
  cbn [db run_log calls]. destruct preds as [|p preds].
  - eexists. eexists. split; [reflexivity|]. cbn [db].
    split; [apply only_adds_refl|auto].
  - match goal with
    | |- context [for_each ?L _ ?S1] =>
        destruct (store_loop (symbol c) iso L S1) as (s' & o & E' & A & O)
    end.
    exists s', o. auto.
Qed.

Lemma fetch_loop (iso : string) (track : list coin) (s : run_state) :
  exists s' o,
    for_each track (fetch_coin parser_parse float_of_str net iso) s = (s', o)
    /\ only_adds_predictions (db s) (db s')
    /\ (o = Ok tt \/ o = Raise IntegrityError).
Proof. apply adding_loop. apply fetch_coin_effect. Qed.

(** Evaluating one due row writes at most one result, for that row. *)
Lemma evaluate_row_effect (track : list coin) (row : due_row) (s : run_state) :
  exists s' o new,
    evaluate_row float_of_str net track row s = (s', o)
    /\ tbl_results (db s') = (tbl_results (db s) ++ new)%list
    /\ (new = [] \/ exists r, new = [r] /\ r_prediction_id r = due_id row).
Proof.
  destruct row as [[[[pid sym] src] target] predicted].
  unfold evaluate_row.
  assert (Skip : forall l m, exists s' o new,
             logging_r l m s = (s', o)
             /\ tbl_results (db s') = (tbl_results (db s) ++ new)%list
             /\ (new = [] \/ exists r, new = [r] /\ r_prediction_id r
                                       = due_id (pid, sym, src, target, predicted))).
  { intros l m. eexists. eexists. exists []. split; [reflexivity|].
    cbn [db]. rewrite app_nil_r. auto. }
  destruct (gecko_of track sym) as [gecko|]; [|apply Skip].
  destruct (String.eqb gecko ""); [apply Skip|].
  unfold bind at 1, call_price.
  destruct (get_actual_price_from_coingecko float_of_str (net (calls s))
              gecko target (run_log s)) as [lg [[a|]|e]].
  - unfold evaluate. unfold bind, modify, logging_r.
    cbn [db run_log calls fst insert_result tbl_results].
    eexists. eexists. eexists. split; [reflexivity|]. cbn [db tbl_results].
    split; [reflexivity|]. right. eexists. split; reflexivity.
  - unfold logging_r, modify. eexists. eexists. exists [].
    split; [reflexivity|]. cbn [db]. rewrite app_nil_r. auto.
  - eexists. eexists. exists []. split; [reflexivity|].
    cbn [db]. rewrite app_nil_r. auto.
Qed.

(** The evaluation loop, ended or interrupted: the results written, in
    order, belong to distinct rows of the due list. *)
Lemma eval_loop (track : list coin) (due : list due_row) (s : run_state) :
  exists s' o new,
    for_each due (evaluate_row float_of_str net track) s = (s', o)
    /\ tbl_results (db s') = (tbl_results (db s) ++ new)%list
    /\ (forall r, In r new -> In (r_prediction_id r) (map due_id due))
    /\ (NoDup (map due_id due) -> NoDup (map r_prediction_id new)).
Proof.
  revert s. induction due as [|row due IH]; intros s.
  - exists s, (Ok tt), []. cbn. rewrite app_nil_r.
    repeat split; [intros r []|constructor].
  - cbn [for_each]. unfold bind at 1.
    destruct (evaluate_row_effect track row s) as [s1 [o1 [new1 [E1 [R1 K1]]]]].
    rewrite E1. destruct o1 as [[]|e].
    + destruct (IH s1) as [s' [o [new [E [R [I N]]]]]].
      exists s', o, (new1 ++ new)%list. split; [exact E|].
      split; [rewrite R, R1, app_assoc; reflexivity|]. split.
      * intros r Hr. apply in_app_or in Hr as [Hr|Hr].
        -- destruct K1 as [->|[r1 [-> Er]]]; [destruct Hr|].
           destruct Hr as [<-|[]]. left. symmetry. exact Er.
        -- right. apply I. exact Hr.
      * intros Hd. cbn [map] in Hd. inversion Hd as [|? ? Hn Hl]; subst.
        destruct K1 as [->|[r1 [-> Er]]]; [apply N; exact Hl|].
        cbn. constructor; [|apply N; exact Hl].
        intros Hin. apply Hn. apply in_map_iff in Hin as [r [Eq Hr]].
        rewrite <- Er, <- Eq. apply I. exact Hr.
    + exists s1, (Raise e), new1. split; [reflexivity|]. split; [exact R1|].
      split.
      * intros r Hr. destruct K1 as [->|[r1 [-> Er]]]; [destruct Hr|].
        destruct Hr as [<-|[]]. left. symmetry. exact Er.
      * intros _. destruct K1 as [->|[r1 [-> Er]]]; cbn; repeat constructor.
        intros [].
Qed.

(** A run, ended or interrupted, appends results for distinct
    predictions that had none. *)
Lemma run_results (track : list coin) (c : conn) :
  unique_ids c ->
  exists new,
    tbl_results (db (fst (run parser_parse float_of_str net today track
                            (mkrun c [] O))))
    = (tbl_results c ++ new)%list
    /\ NoDup (map r_prediction_id new)
    /\ (forall r, In r new -> has_result c (r_prediction_id r) = false).
Proof.
  intros U. unfold run. unfold bind at 1, logging_r at 1, modify.
  cbn [db run_log calls]. unfold bind at 1.
  match goal with
  | |- context [for_each track _ ?S0] =>
      destruct (fetch_loop (isoformat today) track S0)
        as (s1 & o1 & E1 & [R1 U1] & [->| ->])
  end; rewrite E1; cbn [db] in R1, U1; specialize (U1 U);
    [|exists []; cbn [fst]; rewrite R1, app_nil_r;
      repeat split; [constructor|intros r []]].
  unfold bind at 1, gets at 1.
  set (due := find_due_predictions today (db s1) (Some (isoformat today))).
  assert (Hnone : forall r, In (r_prediction_id r) (map due_id due) ->
                            has_result c (r_prediction_id r) = false).
  { intros r Hr. apply in_map_iff in Hr as [row [Er Hrow]].
    apply due_has_no_result in Hrow. unfold has_result in *.
    rewrite R1 in Hrow. rewrite <- Er. exact Hrow. }
  pose proof (due_ids_unique today (db s1) (isoformat today) U1) as Hdup.
  fold due in Hdup.
  destruct due as [|row due'] eqn:Edue.
  - exists []. unfold bind, logging_r, modify. cbn [fst db].
    rewrite R1, app_nil_r. repeat split; [constructor|intros r []].
  - unfold bind at 1. unfold bind at 1, logging_r at 1, modify.
    match goal with
    | |- context [for_each (row :: due') _ ?S2] =>
        destruct (eval_loop track (row :: due') S2)
          as [s3 [o [new [E3 [R3 [I3 N3]]]]]]
    end.
    rewrite E3. cbn [db] in R3. exists new.
    split; [|split; [apply N3; exact Hdup|]].
    + destruct o as [[]|e]; unfold logging_r, modify; cbn [fst db];
        rewrite R3, R1; reflexivity.
    + intros r Hr. apply Hnone. apply I3. exact Hr.
Qed.

End RunFacts.

(** C9. A run, complete or interrupted by an exception, keeps the
    invariant that no prediction has more than one result: the rows it
    appends to [results] (one per call of [insert_result]) reference
    pairwise distinct predictions, none of which had a result before the
    run. *)
Theorem run_keeps_at_most_one_result
    (parser_parse : bool -> string -> option date)
    (float_of_str : string -> option float)
    (net : nat -> string -> exc response) (today : date) (c : conn) :
  unique_ids c ->
  at_most_one_result c ->
  let c' := db (fst (main parser_parse float_of_str net today c)) in
  at_most_one_result c'
  /\ exists new,
       tbl_results c' = (tbl_results c ++ new)%list
       /\ NoDup (map r_prediction_id new)
       /\ (forall r, In r new -> has_result c (r_prediction_id r) = false).
Proof.
  intros U Inv c'.
  destruct (run_results parser_parse float_of_str net today TRACK c U)
    as [new [E [Hd Hn]]].
  fold (main parser_parse float_of_str net today c) in E. fold c' in E.
  split; [|exists new; auto].
  eapply at_most_one_result_extended; eassumption.
Qed.

Lemma run_keeps_at_most_one_result_witness :
  let c' := db (fst (main Scenario.parse PyFloat.of_decimal example_net
                       (mkdate 2026 11 4) Scenario.store_one)) in
  at_most_one_result c'
  /\ exists new,
       tbl_results c' = (tbl_results Scenario.store_one ++ new)%list
       /\ NoDup (map r_prediction_id new)
       /\ (forall r, In r new ->
                     has_result Scenario.store_one (r_prediction_id r) = false).
Proof.
  apply (run_keeps_at_most_one_result Scenario.parse PyFloat.of_decimal
           example_net (mkdate 2026 11 4) Scenario.store_one).
  - unfold unique_ids. simpl. repeat constructor. intros [].
  - intros pid. unfold count_results. simpl. lia.
Defined.

(* ================================================================== *)
(** ** What a run stores *)

(** A property of the state kept by every pass of a loop body is kept by
    the loop, ended or interrupted. *)
Lemma for_each_invariant {S X : Type} (I : S -> Prop) (body : X -> M S unit)
    (l : list X) :
  (forall x s, In x l -> I s -> I (fst (body x s))) ->
  forall s, I s -> I (fst (for_each l body s)).
Proof.
  induction l as [|x l IH]; intros Hb s Hs; [exact Hs|].
  cbn [for_each]. unfold bind.
  pose proof (Hb x s (or_introl eq_refl) Hs) as H1.
  destruct (body x s) as [s1 [[]|e]]; cbn [fst] in *; [|exact H1].
  apply IH; [|exact H1]. intros y s' Hy. apply Hb. right. exact Hy.
Qed.

Section StoredDates.

Variable parser_parse : bool -> string -> option date.
Variable float_of_str : string -> option float.
Variable net : nat -> string -> exc response.
Variable today : date.

(** [parser.parse(...).date()] returns a [date] object. *)
Hypothesis parser_valid :
  forall b s d, parser_parse b s = Some d -> valid_date d.

Lemma labelled_iso (label : string) (r : prediction) :
  labelled parser_parse label r -> iso_text (target_date r).
Proof.
  intros [_ [s [d [Hd Ht]]]]. exists d. split; [|exact Ht].
  exact (parser_valid false s d Hd).
Qed.

(** The extractor returns ISO target dates only. *)
Lemma fetch_targets_iso (get : string -> exc response) (symbol : string) :
  exists rs lg,
    fetch_predictions_from_coincodex parser_parse float_of_str get symbol
    = (Ok rs, lg)
    /\ Forall (fun r => iso_text (target_date r)) rs.
Proof.
  destruct (fetch_stages parser_parse float_of_str get symbol)
    as [rs1 [lg1 [rs2 [lg2 [E [F1 [_ [N S]]]]]]]].
  exists (rs1 ++ rs2)%list, (lg1 ++ lg2)%list. split; [exact E|].
  apply Forall_app. split.
  - eapply Forall_impl; [|exact F1]. intros r. apply labelled_iso.
  - destruct rs1 as [|r1 rs1].
    + destruct (S eq_refl) as [F2 _].
      eapply Forall_impl; [|exact F2]. intros r. apply labelled_iso.
    + destruct N as [-> _]; [discriminate|constructor].
Qed.

Lemma store_prediction_iso (sym iso : string) (p : prediction) (s : run_state) :
  iso_text (target_date p) -> iso_targets (db s) ->
  iso_targets (db (fst (store_prediction sym iso p s))).
Proof.
  intros Hp Hs. unfold store_prediction, bind, logging_r, modify.
  destruct (insert_prediction (db s) sym (source p) iso (target_date p)
              (predicted_price p)) as [[c' id]|e] eqn:E; [|exact Hs].
  apply insert_prediction_ok in E as (_ & _ & ->).
  cbn [fst db]. unfold iso_targets. cbn [tbl_predictions].
  apply Forall_app. split; [exact Hs|]. constructor; [exact Hp|constructor].
Qed.

Lemma fetch_coin_iso (iso : string) (c : coin) (s : run_state) :
  iso_targets (db s) ->
  iso_targets (db (fst (fetch_coin parser_parse float_of_str net iso c s))).
Proof.
  intros Hs. unfold fetch_coin. unfold bind at 1, logging_r at 1, modify.
  unfold bind at 1, call_fetch. cbn [db run_log calls].
  destruct (fetch_targets_iso (net (calls s)) (gecko_id c)) as [rs [lg [E F]]].
  rewrite E. destruct rs as [|r rs].
  - exact Hs.
  - apply (for_each_invariant (fun s => iso_targets (db s))).
    + intros p s' Hp Hs'. apply store_prediction_iso; [|exact Hs'].
      rewrite Forall_forall in F. apply F. exact Hp.
    + exact Hs.
Qed.

Lemma evaluate_row_predictions (track : list coin) (row : due_row) (s : run_state) :
  tbl_predictions (db (fst (evaluate_row float_of_str net track row s)))
  = tbl_predictions (db s).
Proof.
  destruct row as [[[[pid sym] src] target] predicted]. unfold evaluate_row.
  destruct (gecko_of track sym) as [gecko|]; [|reflexivity].
  destruct (String.eqb gecko ""); [reflexivity|].
  unfold bind at 1, call_price.
  destruct (get_actual_price_from_coingecko float_of_str (net (calls s))
              gecko target (run_log s)) as [lg [[a|]|e]]; reflexivity.
Qed.

(** X20. Every target date a run stores is the ISO text of a calendar
    date: if the table has only such dates before the run, it has only
    such dates after it, ended or interrupted. *)
Lemma run_stores_iso_targets (c : conn) :
  iso_targets c ->
  iso_targets (db (fst (main parser_parse float_of_str net today c))).
Proof.
  intros Hc. unfold main, run.
  set (I := fun s : run_state => iso_targets (db s)).
  unfold bind at 1, logging_r at 1, modify. unfold bind at 1.
  match goal with
  | |- context [for_each TRACK ?B ?S0] =>
      assert (H1 : I (fst (for_each TRACK B S0)))
        by (apply for_each_invariant;
            [intros x s _ Hs; apply fetch_coin_iso; exact Hs|exact Hc]);
      destruct (for_each TRACK B S0) as [s1 [[]|e]]; cbn [fst] in H1;
        [|exact H1]
  end.
  unfold bind at 1, gets at 1.
  destruct (find_due_predictions today (db s1) (Some (isoformat today)))
    as [|row due].
  - exact H1.
  - unfold bind at 1. unfold bind at 1, logging_r at 1, modify.
    match goal with
    | |- context [for_each (row :: due) ?B ?S2] =>
        assert (H2 : I (fst (for_each (row :: due) B S2)))
          by (apply for_each_invariant;
              [intros x s _ Hs; unfold I, iso_targets;
               rewrite evaluate_row_predictions; exact Hs|exact H1]);
        destruct (for_each (row :: due) B S2) as [s3 [[]|e]]; exact H2
    end.
Qed.

End StoredDates.

(* ================================================================== *)
(** * Further properties of the code *)

(** ** The store: how the three helpers compose *)

Lemma filter_filter_and {A : Type} (f g : A -> bool) (l : list A) :
  filter f (filter g l) = filter (fun x => g x && f x) l.
Proof.
  induction l as [|x l IH]; cbn; [reflexivity|].
  destruct (g x); cbn; [destruct (f x); now rewrite IH|exact IH].
Qed.

Lemma has_result_insert_result (c : conn) (pid : Z)
    (a b p : option float) (q : Z) :
  has_result (fst (insert_result c pid a b p)) q
  = has_result c q || (pid =? q).
Proof.
  unfold has_result, insert_result. cbn [fst tbl_results].
  rewrite existsb_app. cbn. now rewrite orb_false_r.
Qed.

(** X1. Recording a result for a prediction removes exactly that
    prediction from the due rows, whatever the cut-off argument: the new
    list is the old one without the rows of that id, in the same order. *)
Theorem insert_result_removes_from_due (today : date) (c : conn) (pid : Z)
    (a b p : option float) (as_of : option string) :
  find_due_predictions today (fst (insert_result c pid a b p)) as_of
  = filter (fun row => negb (due_id row =? pid))
      (find_due_predictions today c as_of).
Proof.
  assert (H : forall d,
    find_due_predictions today (fst (insert_result c pid a b p)) (Some d)
    = filter (fun row => negb (due_id row =? pid))
        (find_due_predictions today c (Some d))).
  { intros d. rewrite !find_due_as_filter, filter_map_swap, filter_filter_and.
    change (tbl_predictions (fst (insert_result c pid a b p)))
      with (tbl_predictions c).
    f_equal. apply filter_ext.
    intros q. cbv beta. rewrite has_result_insert_result.
    change (due_id (select_due q)) with (p_id q). rewrite (Z.eqb_sym pid).
    destruct (has_result c (p_id q)), (p_id q =? pid),
      (Sql.is_true (Sql.le (Sql.DATE (p_target_date q)) (Sql.DATE d)));
      reflexivity. }
  destruct as_of as [d|]; [apply H|apply (H (isoformat today))].
Qed.

(** X2. A prediction whose price is a NaN is refused with an integrity
    error (the price column is NOT NULL). Any other prediction is stored
    (the ids in use being below the largest rowid, 2^63 - 1), its price
    as the database takes it; when its target date is the ISO text of a
    calendar date [t], the due rows for a cut-off date [D] are those of
    before, followed by the new row exactly when [t] is not after [D]
    (and no result row already carries the new id). *)
Theorem insert_prediction_extends_due (today : date) (c : conn)
    (sym src pd : string) (t D : date) (pp : float) :
  valid_date t ->
  valid_date D ->
  (forall p, In p (tbl_predictions c) -> p_id p < 2 ^ 63 - 1) ->
  (PrimFloat.is_nan pp = true ->
   insert_prediction c sym src pd (isoformat t) pp = Raise IntegrityError)
  /\ (PrimFloat.is_nan pp = false ->
      exists c' id price,
        insert_prediction c sym src pd (isoformat t) pp = Ok (c', id)
        /\ bind_real (Some pp) = Some price
        /\ find_due_predictions today c' (Some (isoformat D))
           = (find_due_predictions today c (Some (isoformat D))
              ++ (if negb (has_result c id) && date_leb t D
                  then [(id, sym, src, isoformat t, price)] else []))%list).
Proof.
  intros Vt VD _. split.
  - intros N. unfold insert_prediction, bind_real. now rewrite N.
  - intros N.
    destruct (insert_prediction c sym src pd (isoformat t) pp)
      as [[c' id]|e] eqn:E;
      [|apply insert_prediction_raises in E as [_ E]; congruence].
    exists c', id, (if (pp =? 0)%float then 0%float else pp).
    split; [reflexivity|].
    split; [unfold bind_real; rewrite N; destruct (pp =? 0)%float; reflexivity|].
    apply insert_prediction_ok in E as (_ & -> & ->).
    set (price := if (pp =? 0)%float then 0%float else pp).
    rewrite !find_due_as_filter.
    cbn [tbl_predictions]. rewrite filter_app, map_app.
    f_equal. cbn [filter p_id p_target_date].
    rewrite !IsoDate.DATE_isoformat by assumption. cbn [Sql.le Sql.is_true].
    rewrite IsoDate.leb_isoformat by (apply IsoDate.valid_in_range; assumption).
    change (has_result
              (mkconn (tbl_predictions c ++
                         [mkprow (next_rowid (map p_id (tbl_predictions c)))
                            sym src pd (isoformat t) price])
                 (tbl_results c)))
      with (has_result c).
    destruct (has_result c _), (date_leb t D); reflexivity.
Qed.

Lemma insert_prediction_extends_due_witness :
  (PrimFloat.is_nan 70000%float = true ->
   insert_prediction Scenario.store_one "BTC" "CoinCodex" "2026-11-04"
     (isoformat (mkdate 2026 11 1)) 70000%float = Raise IntegrityError)
  /\ (PrimFloat.is_nan 70000%float = false ->
      exists c' id price,
        insert_prediction Scenario.store_one "BTC" "CoinCodex" "2026-11-04"
          (isoformat (mkdate 2026 11 1)) 70000%float = Ok (c', id)
        /\ bind_real (Some 70000%float) = Some price
        /\ find_due_predictions (mkdate 2026 11 4) c'
             (Some (isoformat (mkdate 2026 11 4)))
           = (find_due_predictions (mkdate 2026 11 4) Scenario.store_one
                (Some (isoformat (mkdate 2026 11 4)))
              ++ (if negb (has_result Scenario.store_one id)
                     && date_leb (mkdate 2026 11 1) (mkdate 2026 11 4)
                  then [(id, "BTC", "CoinCodex", isoformat (mkdate 2026 11 1),
                         price)]
                  else []))%list).
Proof.
  apply (insert_prediction_extends_due (mkdate 2026 11 4) Scenario.store_one
           "BTC" "CoinCodex" "2026-11-04" (mkdate 2026 11 1) (mkdate 2026 11 4)
           70000%float eq_refl eq_refl).
  intros p [<-|[]]. vm_compute. reflexivity.
Defined.

Lemma ascii_compare_trans_le (a b c : ascii) :
  Ascii.compare a b <> Gt -> Ascii.compare b c <> Gt -> Ascii.compare a c <> Gt.
Proof.
  unfold Ascii.compare. rewrite !N.compare_le_iff. lia.
Qed.

Lemma ascii_compare_eq (a b : ascii) : Ascii.compare a b = Eq -> a = b.
Proof.
  unfold Ascii.compare. intros H. apply N.compare_eq in H.
  rewrite <- (ascii_N_embedding a), <- (ascii_N_embedding b). now rewrite H.
Qed.

(** The BINARY collation order is transitive. *)
Lemma string_leb_trans (a b c : string) :
  String.leb a b = true -> String.leb b c = true -> String.leb a c = true.
Proof.
  unfold String.leb. revert b c.
  induction a as [|x a IH]; intros [|y b] [|z c]; cbn; try congruence.
  destruct (Ascii.compare x y) eqn:Exy; try discriminate;
    destruct (Ascii.compare y z) eqn:Eyz; try discriminate; intros H1 H2.
  - apply ascii_compare_eq in Exy, Eyz. subst.
    assert (Ascii.compare z z = Eq) as ->
      by (unfold Ascii.compare; apply N.compare_refl).
    now apply (IH b c).
  - apply ascii_compare_eq in Exy. subst. now rewrite Eyz.
  - apply ascii_compare_eq in Eyz. subst. now rewrite Exy.
  - assert (Ascii.compare x z = Lt) as ->; [|reflexivity].
    unfold Ascii.compare in *. rewrite N.compare_lt_iff in *. lia.
Qed.

(** X3. The due rows grow with the cut-off: a row due for one cut-off is
    due for every cut-off whose [DATE] is not earlier. (The cut-offs are
    texts YYYY-MM-DD that [DATE] accepts; a day past the end of its month
    is compared as written.) *)
Theorem due_rows_grow_with_cutoff (today : date) (c : conn)
    (d1 d2 x1 x2 : string) (row : due_row) :
  Sql.DATE d1 = Some x1 ->
  Sql.DATE d2 = Some x2 ->
  String.leb x1 x2 = true ->
  In row (find_due_predictions today c (Some d1)) ->
  In row (find_due_predictions today c (Some d2)).
Proof.
  intros H1 H2 Hle. rewrite !find_due_as_filter, !in_map_iff.
  intros [p [E Hp]]. exists p. split; [exact E|].
  apply filter_In in Hp as [Hin Hc]. apply filter_In. split; [exact Hin|].
  apply andb_true_iff in Hc as [Hn Hd]. rewrite Hn. cbn [andb].
  rewrite H1 in Hd. rewrite H2.
  destruct (Sql.DATE (p_target_date p)) as [t|]; [|discriminate].
  cbn [Sql.le Sql.is_true] in *.
  destruct (String.leb t x1) eqn:Et; [|discriminate].
  now rewrite (string_leb_trans t x1 x2 Et Hle).
Qed.

Lemma due_rows_grow_with_cutoff_witness :
  In (select_due Scenario.stored_prediction)
    (find_due_predictions (mkdate 2026 11 4) Scenario.store_one
       (Some "2024-06-31")).
Proof.
  apply (due_rows_grow_with_cutoff (mkdate 2026 11 4) Scenario.store_one
           "2024-06-01" "2024-06-31" "2024-06-01" "2024-06-31"
           (select_due Scenario.stored_prediction)
           eq_refl eq_refl eq_refl).
  simpl. left. reflexivity.
Defined.

(** X4. A cut-off of the form YYYY-MM-DD whose month is not 1-12 or whose
    day is not 1-31 is NULL for [DATE]: the query returns no row at all,
    however old the stored predictions are. *)
Theorem invalid_cutoff_finds_nothing (today : date) (c : conn)
    (as_of : string) (y m d : Z) :
  read_ymd as_of = Some (y, m, d) ->
  (m <? 1) || (12 <? m) || (d <? 1) || (31 <? d) = true ->
  find_due_predictions today c (Some as_of) = [].
Proof.
  intros Hr Hbad. rewrite find_due_as_filter.
  assert (HN : Sql.DATE as_of = None).
  { unfold Sql.DATE. rewrite Hr.
    destruct ((1 <=? m) && (m <=? 12) && (1 <=? d) && (d <=? 31)) eqn:E;
      [|reflexivity].
    repeat (apply andb_true_iff in E; destruct E as [E ?]).
    repeat (apply orb_true_iff in Hbad; destruct Hbad as [Hbad|Hbad]); lia. }
  rewrite HN.
  rewrite (filter_ext _ (fun _ => false)), filter_false; [reflexivity|].
  intros q. destruct (Sql.DATE (p_target_date q)); cbn; apply andb_false_r.
Qed.

Lemma invalid_cutoff_finds_nothing_witness :
  find_due_predictions (mkdate 2026 11 4) Scenario.store_one
    (Some "2026-13-01") = [].
Proof.
  exact (invalid_cutoff_finds_nothing (mkdate 2026 11 4) Scenario.store_one
           "2026-13-01" 2026 13 1 eq_refl eq_refl).
Defined.

(** X5. While the ids in use are below the largest rowid, 2^63 - 1: a
    prediction that is stored (its price is not a NaN) and a result get
    an id above every id in use in their table and not above the largest
    rowid, so the primary keys of [predictions] and [results] stay unique;
    the other table is untouched. *)
Theorem inserts_return_fresh_ids (c c' : conn) (sym src pd td : string)
    (pp : float) (id pid : Z) (a b e : option float) :
  (forall p, In p (tbl_predictions c) -> p_id p < 2 ^ 63 - 1) ->
  (forall r, In r (tbl_results c) -> r_id r < 2 ^ 63 - 1) ->
  insert_prediction c sym src pd td pp = Ok (c', id) ->
  let rid := snd (insert_result c pid a b e) in
  (forall p, In p (tbl_predictions c) -> p_id p < id)
  /\ id <= 2 ^ 63 - 1
  /\ (forall r, In r (tbl_results c) -> r_id r < rid)
  /\ rid <= 2 ^ 63 - 1
  /\ (unique_ids c -> unique_ids c')
  /\ (unique_result_ids c ->
      unique_result_ids (fst (insert_result c pid a b e)))
  /\ tbl_results c' = tbl_results c
  /\ tbl_predictions (fst (insert_result c pid a b e)) = tbl_predictions c.
Proof.
  intros Bp Br E rid.
  pose proof (insert_prediction_unique _ _ _ _ _ _ _ _ E) as U.
  apply insert_prediction_ok in E as (_ & -> & ->).
  assert (Below : forall ids : list Z,
             (forall i, In i ids -> i < 2 ^ 63 - 1) ->
             next_rowid ids <= 2 ^ 63 - 1).
  { intros [|i0 rest] H; [cbn; lia|]. unfold next_rowid.
    assert (fold_right Z.max i0 rest < 2 ^ 63 - 1); [|lia].
    induction rest as [|y rest IH]; cbn [fold_right].
    - apply H. left. reflexivity.
    - apply Z.max_lub_lt.
      + apply H. right. left. reflexivity.
      + apply IH. intros i [<-|Hi]; apply H; [left|right; right]; auto. }
  repeat split.
  - intros p Hp. apply next_rowid_above. apply in_map. exact Hp.
  - apply Below. intros i Hi. apply in_map_iff in Hi as [p [<- Hp]]. auto.
  - intros r Hr. apply next_rowid_above. apply in_map. exact Hr.
  - apply Below. intros i Hi. apply in_map_iff in Hi as [r [<- Hr]]. auto.
  - exact U.
  - unfold unique_result_ids, insert_result. cbn [fst tbl_results].
    intros H. rewrite map_app. cbn [map r_id].
    apply NoDup_app; [exact H|repeat constructor; intros []|].
    intros x Hx [<-|[]]. apply next_rowid_above in Hx. lia.
Qed.

Lemma inserts_return_fresh_ids_witness :
  let c := Scenario.store_one in
  let c' :=
    mkconn [Scenario.stored_prediction;
            mkprow 2 "BTC" "CoinCodex" "2026-11-04" "2027-01-01" 70000%float]
      [] in
  let rid := snd (insert_result c 1 (Some 60000%float) None None) in
  (forall p, In p (tbl_predictions c) -> p_id p < 2)
  /\ 2 <= 2 ^ 63 - 1
  /\ (forall r, In r (tbl_results c) -> r_id r < rid)
  /\ rid <= 2 ^ 63 - 1
  /\ (unique_ids c -> unique_ids c')
  /\ (unique_result_ids c ->
      unique_result_ids (fst (insert_result c 1 (Some 60000%float) None None)))
  /\ tbl_results c' = tbl_results c
  /\ tbl_predictions (fst (insert_result c 1 (Some 60000%float) None None))
     = tbl_predictions c.
Proof.
  apply (inserts_return_fresh_ids Scenario.store_one _ "BTC" "CoinCodex"
           "2026-11-04" "2027-01-01" 70000%float 2 1 (Some 60000%float)
           None None).
  - intros p [<-|[]]. vm_compute. reflexivity.
  - intros r [].
  - reflexivity.
Defined.

(* ================================================================== *)
(** ** The run as a whole *)

Section RunShape.

Variable parser_parse : bool -> string -> option date.
Variable float_of_str : string -> option float.
Variable net : nat -> string -> exc response.
Variable today : date.

(** The database after a run is the one left by the evaluation loop,
    started on the database left by the fetch loop; the loop runs over
    the due rows, or over none when the fetch loop was interrupted. *)
Lemma run_db (track : list coin) (c : conn) :
  let s1 :=
    fst (for_each track
           (fetch_coin parser_parse float_of_str net (isoformat today))
           (mkrun c [(INFO, TrackerRun (isoformat today))] O)) in
  let due := find_due_predictions today (db s1) (Some (isoformat today)) in
  exists s2 rows,
    db s2 = db s1
    /\ (rows = due \/ rows = [])
    /\ db (fst (run parser_parse float_of_str net today track (mkrun c [] O)))
       = db (fst (for_each rows (evaluate_row float_of_str net track) s2)).
Proof.
  intros s1 due. unfold run. unfold bind at 1, logging_r at 1, modify.
  cbn [db run_log calls app]. unfold bind at 1.
  destruct (fetch_loop parser_parse float_of_str net (isoformat today) track
              (mkrun c [(INFO, TrackerRun (isoformat today))] O))
    as (s1' & o1 & E1 & _ & O1).
  assert (Es : s1 = s1') by (subst s1; now rewrite E1). rewrite E1.
  rewrite <- Es.
  destruct O1 as [->| ->]; [|exists s1, []; auto].
  unfold bind at 1, gets at 1. fold due.
  destruct due as [|row due'] eqn:Edue.
  - exists s1, []. split; [reflexivity|]. split; [auto|].
    unfold bind, logging_r, modify. reflexivity.
  - unfold bind at 1. unfold bind at 1, logging_r at 1, modify.
    exists (mkrun (db s1)
              (run_log s1 ++ [(INFO, FoundDue (List.length (row :: due')))])
              (calls s1)), (row :: due').
    split; [reflexivity|]. split; [auto|].
    destruct (for_each (row :: due') _ _) as [s3 [[]|e]]; reflexivity.
Qed.

Lemma call_fetch_labelled (gecko : string) (s : run_state) :
  exists preds lg,
    call_fetch parser_parse float_of_str net gecko s
    = (mkrun (db s) (run_log s ++ lg) (S (calls s)), Ok preds)
    /\ Forall (fun r => source r = "CoinCodex" \/ source r = "CoinCodex-scrape")
         preds.
Proof.
  unfold call_fetch.
  destruct (fetch_stages parser_parse float_of_str (net (calls s)) gecko)
    as [rs1 [lg1 [rs2 [lg2 [E [F1 [_ [N S]]]]]]]].
  rewrite E. eexists. eexists. split; [reflexivity|].
  apply Forall_app. split.
  - eapply Forall_impl; [|exact F1]. intros r [L _]. left. exact L.
  - destruct rs1 as [|r1 rs1].
    + destruct (S eq_refl) as [F2 _].
      eapply Forall_impl; [|exact F2]. intros r [L _]. right. exact L.
    + destruct N as [-> _]; [discriminate|constructor].
Qed.

(** What the fetch loop keeps: a property of the predictions table that
    holds of the table and survives the storing of any labelled record
    for a tracked symbol. *)
Lemma fetch_loop_invariant (track : list coin) (I : conn -> Prop) :
  (forall c sym r c' id,
      In sym (map symbol track) ->
      (source r = "CoinCodex" \/ source r = "CoinCodex-scrape") ->
      I c ->
      insert_prediction c sym (source r) (isoformat today)
        (target_date r) (predicted_price r) = Ok (c', id) ->
      I c') ->
  forall s, I (db s) ->
    I (db (fst (for_each track
                  (fetch_coin parser_parse float_of_str net (isoformat today))
                  s))).
Proof.
  intros Step. apply (for_each_invariant (fun s => I (db s))).
  intros cn s Hcn Hs. unfold fetch_coin.
  unfold bind at 1, logging_r at 1, modify. unfold bind at 1.
  match goal with
  | |- context [call_fetch _ _ _ _ ?S0] =>
      destruct (call_fetch_labelled (gecko_id cn) S0) as [preds [lg [E F]]];
      rewrite E
  end.
  cbn [db run_log calls]. destruct preds as [|r preds]; [exact Hs|].
  apply (for_each_invariant (fun s => I (db s))); [|exact Hs].
  intros r' s' Hr' Hs'. unfold store_prediction, bind, logging_r, modify.
  destruct (insert_prediction (db s') (symbol cn) (source r') (isoformat today)
              (target_date r') (predicted_price r')) as [[c' id]|e] eqn:Ei;
    [|exact Hs'].
  cbn [fst db]. rewrite Forall_forall in F.
  apply (Step (db s') (symbol cn) r' c' id);
    [|apply F; exact Hr'|exact Hs'|exact Ei].
  apply in_map. exact Hcn.
Qed.

(** The evaluation loop keeps the predictions table. *)
Lemma eval_loop_predictions (track : list coin) (due : list due_row)
    (s : run_state) :
  tbl_predictions (db (fst (for_each due (evaluate_row float_of_str net track) s)))
  = tbl_predictions (db s).
Proof.
  apply (for_each_invariant
           (fun s' => tbl_predictions (db s') = tbl_predictions (db s)));
    [|reflexivity].
  intros row s' _ H. now rewrite evaluate_row_predictions.
Qed.

End RunShape.

Section RunProperties.

Variable parser_parse : bool -> string -> option date.
Variable float_of_str : string -> option float.
Variable net : nat -> string -> exc response.
Variable today : date.

(** Evaluating a due row leaves the database as it is, or records one
    result computed from the row and the price fetched for a mapped
    symbol. *)
Lemma evaluate_row_db_cases (track : list coin) (pid : Z)
    (sym src target : string) (P : float) (s : run_state) :
  let s' :=
    fst (evaluate_row float_of_str net track (pid, sym, src, target, P) s) in
  db s' = db s
  \/ exists a g,
       gecko_of track sym = Some g /\ String.eqb g "" = false
       /\ db s'
          = fst (insert_result (db s) pid (Some a) (Some (abs (P - a))%float)
                   (if (a =? 0)%float then None
                    else Some (abs (P - a) / a * 100)%float)).
Proof.
  cbv zeta. unfold evaluate_row.
  destruct (gecko_of track sym) as [g|]; [|left; reflexivity].
  destruct (String.eqb g "") eqn:Eg; [left; reflexivity|].
  unfold bind, call_price.
  destruct (get_actual_price_from_coingecko float_of_str (net (calls s))
              g target (run_log s)) as [lg [[a|]|e]];
    [|left; reflexivity|left; reflexivity].
  right. exists a, g. split; [reflexivity|]. split; [exact Eg|].
  unfold evaluate, bind, modify, logging_r. cbn [fst db negb].
  destruct (a =? 0)%float; reflexivity.
Qed.

(** X6. A run only appends to [predictions]: the rows found at the start
    are kept, in place, and every row added is dated today, carries a
    tracked symbol and one of the two strategy labels. This holds also
    when the run is interrupted. *)
Theorem run_only_appends_predictions (c : conn) :
  exists added,
    tbl_predictions (db (fst (main parser_parse float_of_str net today c)))
    = (tbl_predictions c ++ added)%list
    /\ Forall (written_today today TRACK) added.
Proof.
  unfold main.
  destruct (run_db parser_parse float_of_str net today TRACK c)
    as (s2 & rows & E2 & _ & ->).
  rewrite eval_loop_predictions, E2.
  apply (fetch_loop_invariant parser_parse float_of_str net today TRACK
           (fun c0 => exists added,
              tbl_predictions c0 = (tbl_predictions c ++ added)%list
              /\ Forall (written_today today TRACK) added)).
  - intros c0 sym r c1 id Hsym Hsrc [added [E F]] Hins.
    apply insert_prediction_ok in Hins as (_ & -> & ->).
    exists (added ++ [mkprow (next_rowid (map p_id (tbl_predictions c0))) sym
                        (source r) (isoformat today) (target_date r)
                        (if (predicted_price r =? 0)%float then 0%float
                         else predicted_price r)])%list.
    cbn [tbl_predictions]. rewrite E, app_assoc.
    split; [reflexivity|]. apply Forall_app. split; [exact F|].
    constructor; [|constructor]. unfold written_today. cbn. auto.
  - exists []. cbn [db]. rewrite app_nil_r. split; [reflexivity|constructor].
Qed.

(** X7. A run keeps the primary keys of both tables: if no two
    predictions share an id before it, none do after it, and likewise for
    the results. *)
Theorem run_keeps_primary_keys (c : conn) :
  unique_ids c -> unique_result_ids c ->
  let c' := db (fst (main parser_parse float_of_str net today c)) in
  unique_ids c' /\ unique_result_ids c'.
Proof.
  intros U R c'. subst c'. unfold main.
  destruct (run_db parser_parse float_of_str net today TRACK c)
    as (s2 & rows & E2 & _ & ->).
  assert (H1 : unique_ids (db s2) /\ unique_result_ids (db s2)).
  { rewrite E2.
    apply (fetch_loop_invariant parser_parse float_of_str net today TRACK
             (fun c0 => unique_ids c0 /\ unique_result_ids c0)).
    - intros c0 sym r c1 id _ _ [U0 R0] Hins. split.
      + exact (insert_prediction_unique _ _ _ _ _ _ _ _ Hins U0).
      + apply insert_prediction_ok in Hins as (_ & _ & ->). exact R0.
    - split; assumption. }
  split.
  - unfold unique_ids. rewrite eval_loop_predictions. apply H1.
  - apply (for_each_invariant (fun s => unique_result_ids (db s)));
      [|apply H1].
    intros [[[[pid sym] src] target] P] s _ Hs.
    destruct (evaluate_row_db_cases TRACK pid sym src target P s)
      as [->|[a [g [_ [_ ->]]]]]; [exact Hs|].
    unfold unique_result_ids, insert_result. cbn [fst tbl_results].
    rewrite map_app. cbn [map r_id].
    apply NoDup_app; [exact Hs|repeat constructor; intros []|].
    intros x Hx [<-|[]]. apply next_rowid_above in Hx. lia.
Qed.


End RunProperties.

Lemma dateutil_parse_valid (this_year : Z) (b : bool) (s : string) (d : date) :
  Dateutil.parse this_year b s = Some d -> valid_date d.
Proof.
  unfold Dateutil.parse. destruct (Dateutil.fields s) as [[[[x y] z] same]|];
    [|discriminate].
  destruct (_ || _ || _); [discriminate|].
  destruct (Dateutil.resolve_ymd _ _ _ _ _) as [[yy mm] dd].
  unfold make_date. destruct (valid_dateb _) eqn:V; [|discriminate].
  intros H. injection H as <-. exact V.
Qed.

Lemma run_keeps_primary_keys_witness :
  let c' := db (fst (main Scenario.parse PyFloat.of_decimal example_net
                       (mkdate 2026 11 4) Scenario.store_one)) in
  unique_ids c' /\ unique_result_ids c'.
Proof.
  apply (run_keeps_primary_keys Scenario.parse PyFloat.of_decimal example_net
           (mkdate 2026 11 4) Scenario.store_one).
  - unfold unique_ids. simpl. repeat constructor. intros [].
  - unfold unique_result_ids. simpl. constructor.
Defined.

Lemma run_stores_iso_targets_witness :
  iso_targets (db (fst (main Scenario.parse PyFloat.of_decimal example_net
                          (mkdate 2026 11 4) Scenario.store_one))).
Proof.
  apply (run_stores_iso_targets Scenario.parse PyFloat.of_decimal example_net
           (mkdate 2026 11 4) (dateutil_parse_valid 2026) Scenario.store_one).
  unfold iso_targets. simpl. constructor; [|constructor].
  exists (mkdate 2024 6 1). split; reflexivity.
Defined.

(* ================================================================== *)
(** ** The extractor *)

Section ExtractorProperties.

Variable parser_parse : bool -> string -> option date.
Variable float_of_str : string -> option float.

(** The function, by the state the first strategy leaves. *)
Lemma fetch_by_first_stage (get : string -> exc response) (symbol : string) :
  let s1 :=
    fst (try_except (api_attempt parser_parse float_of_str get symbol)
           (fun e => logging_f DEBUG (ApiFailed e)) (mkfetch [] [])) in
  fetch_predictions_from_coincodex parser_parse float_of_str get symbol
  = match results s1 with
    | [] =>
        let s2 :=
          fst (try_except (scrape_attempt parser_parse float_of_str get symbol)
                 (fun e => logging_f DEBUG (ScrapeFailed e)) s1) in
        (Ok (results s2), fetch_log s2)
    | _ :: _ => (Ok (results s1), fetch_log s1)
    end.
Proof.
  cbv zeta. unfold fetch_predictions_from_coincodex, fetch_body.
  unfold bind at 1.
  destruct (api_stage parser_parse float_of_str get symbol (mkfetch [] []))
    as [rs1 [lg1 [E1 _]]].
  rewrite E1. cbn [fst results fetch_log app].
  unfold bind at 1, gets at 1. cbn [results].
  destruct rs1 as [|r1 rs1]; [|reflexivity].
  destruct (scrape_stage parser_parse float_of_str get symbol (mkfetch [] lg1))
    as [rs2 [lg2 [E2 _]]].
  unfold bind at 1. rewrite E2. reflexivity.
Qed.

(** X9. The records of one call all carry the same label: they are all
    from the API or all from the scrape, never a mixture. *)
Theorem fetch_records_share_one_label (get : string -> exc response)
    (symbol : string) :
  exists rs lg,
    fetch_predictions_from_coincodex parser_parse float_of_str get symbol
    = (Ok rs, lg)
    /\ (Forall (fun r => source r = "CoinCodex") rs
        \/ Forall (fun r => source r = "CoinCodex-scrape") rs).
Proof.
  destruct (fetch_stages parser_parse float_of_str get symbol)
    as [rs1 [lg1 [rs2 [lg2 [E [F1 [_ [N S]]]]]]]].
  exists (rs1 ++ rs2)%list, (lg1 ++ lg2)%list. split; [exact E|].
  destruct rs1 as [|r1 rs1].
  - right. destruct (S eq_refl) as [F2 _]. cbn [app].
    eapply Forall_impl; [|exact F2]. intros r [L _]. exact L.
  - left. destruct N as [-> _]; [discriminate|]. rewrite app_nil_r.
    eapply Forall_impl; [|exact F1]. intros r [L _]. exact L.
Qed.

(** X10. When the API gives a record, the page is not requested: the
    result and the log are the same whatever the source would answer on
    any other URL. *)
Theorem page_not_requested_after_api_record
    (get get' : string -> exc response) (symbol : string)
    (r : prediction) (rs : list prediction) (lg : list log_record) :
  get' (api_url symbol) = get (api_url symbol) ->
  fetch_predictions_from_coincodex parser_parse float_of_str get symbol
  = (Ok (r :: rs), lg) ->
  source r = "CoinCodex" ->
  fetch_predictions_from_coincodex parser_parse float_of_str get' symbol
  = (Ok (r :: rs), lg).
Proof.
  intros Hsame Hget Hsrc.
  rewrite fetch_by_first_stage in *. cbv zeta in *.
  assert (Estage :
    try_except (api_attempt parser_parse float_of_str get' symbol)
      (fun e => logging_f DEBUG (ApiFailed e)) (mkfetch [] [])
    = try_except (api_attempt parser_parse float_of_str get symbol)
        (fun e => logging_f DEBUG (ApiFailed e)) (mkfetch [] [])).
  { unfold try_except, api_attempt. fold (api_url symbol).
    unfold bind at 1 3, lift at 1 3. rewrite Hsame. reflexivity. }
  rewrite Estage.
  destruct (results (fst (try_except
              (api_attempt parser_parse float_of_str get symbol)
              (fun e => logging_f DEBUG (ApiFailed e)) (mkfetch [] []))))
    as [|r1 rs1] eqn:E1; [|exact Hget].
  exfalso.
  destruct (api_stage parser_parse float_of_str get symbol (mkfetch [] []))
    as [rs1 [lg1 [Ea _]]].
  rewrite Ea in *. cbn [fst results fetch_log app] in *. subst rs1.
  destruct (scrape_stage parser_parse float_of_str get symbol (mkfetch [] lg1))
    as [rs2 [lg2 [E2 [F2 _]]]].
  rewrite E2 in Hget. cbn [fst results fetch_log app] in Hget.
  injection Hget as Hrs _. subst rs2.
  inversion F2 as [|? ? [L _] _]; subst. rewrite Hsrc in L. discriminate L.
Qed.

(** X11. An entry is read only through the first non-empty value under
    "date"/"target_date" and under "price"/"predicted_price": two objects
    that agree on these are treated alike, whichever of the key names
    they use and whatever else they hold. *)
Theorem entry_reads_either_key_name (d d' : list (string * pyval))
    (s : fetch_state) :
  first_present d "date" "target_date"
  = first_present d' "date" "target_date" ->
  first_present d "price" "predicted_price"
  = first_present d' "price" "predicted_price" ->
  api_entry parser_parse float_of_str (PDict d) s
  = api_entry parser_parse float_of_str (PDict d') s.
Proof.
  intros Hd Hp. unfold api_entry.
  rewrite !get_either_first_present, Hd, Hp. reflexivity.
Qed.

(** X12. A price that is zero, empty or null counts as missing: unless
    "predicted_price" holds a non-empty value, the entry is passed over
    without a record and without a log line. *)
Theorem falsy_price_entry_is_skipped (d : list (string * pyval)) (v : pyval)
    (s : fetch_state) :
  Py.lookup "price" d = Some v ->
  Py.truthy v = false ->
  Py.lookup "predicted_price" d = None ->
  api_entry parser_parse float_of_str (PDict d) s = (s, Ok tt).
Proof.
  intros Hv Hf Hn. unfold api_entry. rewrite !get_either_first_present.
  assert (first_present d "price" "predicted_price" = None) as ->.
  { unfold first_present. now rewrite Hv, Hf, Hn. }
  unfold bind, lift, ret. cbn [Py.truthy]. now rewrite andb_false_r.
Qed.

(** X13. When "price_prediction" holds a non-empty JSON object instead of
    a list, the loop runs over its keys, the first key (a string) has no
    [get], and the first strategy ends with no record and one
    AttributeError record in the log. *)
Theorem predictions_object_aborts_first_strategy
    (get : string -> exc response) (symbol : string) (r : response)
    (d rest : list (string * pyval)) (k : string) (v : pyval) :
  get (api_url symbol) = Ok r ->
  status_code r = 200 ->
  json r = Some (PDict d) ->
  Py.lookup "price_prediction" d = Some (PDict ((k, v) :: rest)) ->
  try_except (api_attempt parser_parse float_of_str get symbol)
    (fun e => logging_f DEBUG (ApiFailed e)) (mkfetch [] [])
  = (mkfetch [] [(DEBUG, ApiFailed AttributeError)], Ok tt).
Proof.
  intros Hget Hst Hjson Hlook. unfold api_attempt. fold (api_url symbol).
  unfold try_except, bind at 1, lift at 1. rewrite Hget, Hst. cbn [Z.eqb Pos.eqb].
  unfold bind at 1, lift at 1, or_raise at 1. rewrite Hjson.
  unfold bind at 1, lift at 1. cbn [Py.is_dict Py.contains]. rewrite Hlook.
  unfold bind at 1, lift at 1. cbn [Py.get]. rewrite Hlook.
  cbn [Py.truthy Py.iter map fst]. unfold bind at 1, lift at 1.
  cbn [for_each]. unfold bind at 1, api_entry at 1. unfold bind at 1, lift at 1.
  cbn [get_either Py.get]. reflexivity.
Qed.

Lemma scrape_loop_length (ds ps : list string) (idx : list nat)
    (s : fetch_state) :
  exists rs,
    for_each idx (scrape_pair parser_parse float_of_str ds ps) s
    = (mkfetch (results s ++ rs) (fetch_log s), Ok tt)
    /\ (List.length rs <= List.length idx)%nat.
Proof.
  revert s. induction idx as [|i idx IH]; intros s; cbn [for_each].
  - exists []. rewrite app_nil_r. destruct s; split; [reflexivity|cbn; lia].
  - unfold bind at 1.
    destruct (scrape_pair_cases parser_parse float_of_str ds ps i s)
      as [H|[r [Hr H]]]; rewrite H.
    + destruct (IH s) as [rs [E L]]. exists rs. split; [exact E|cbn; lia].
    + destruct (IH (mkfetch (results s ++ [r]) (fetch_log s))) as [rs [E L]].
      exists (r :: rs). cbn [results fetch_log] in E.
      rewrite <- app_assoc in E. split; [exact E|cbn; lia].
Qed.

(** X14. The scrape of a block never raises, writes no log line, and adds
    at most as many records as the text has date tokens and numeric
    tokens, whichever are fewer; none when either kind is absent. *)
Theorem scrape_adds_at_most_one_record_per_pair (txt : string)
    (s : fetch_state) :
  exists rs,
    scrape_text parser_parse float_of_str txt s
    = (mkfetch (results s ++ rs) (fetch_log s), Ok tt)
    /\ (List.length rs
        <= Nat.min (List.length (Re.findall Re.date_pattern txt))
             (List.length (Re.findall Re.price_pattern txt)))%nat.
Proof.
  unfold scrape_text.
  destruct (Re.findall Re.date_pattern txt) as [|d ds] eqn:Ed;
    [|destruct (Re.findall Re.price_pattern txt) as [|p ps] eqn:Ep].
  - exists []. rewrite app_nil_r. destruct s; split; [reflexivity|cbn; lia].
  - exists []. rewrite app_nil_r. destruct s; split; [reflexivity|cbn; lia].
  - destruct (scrape_loop_length (d :: ds) (p :: ps)
                (seq 0 (Nat.min (List.length (d :: ds)) (List.length (p :: ps))))
                s) as [rs [E L]].
    exists rs. split; [exact E|]. now rewrite length_seq in L.
Qed.

End ExtractorProperties.

Lemma page_not_requested_after_api_record_witness :
  fetch_predictions_from_coincodex Scenario.parse PyFloat.of_decimal
    (Scenario.serve Scenario.api_priced Scenario.page_block) "bitcoin"
  = (Ok [mkprediction "2024-06-01" 65000 "CoinCodex"], []).
Proof.
  exact (page_not_requested_after_api_record Scenario.parse PyFloat.of_decimal
           (Scenario.serve Scenario.api_priced Scenario.page_plain)
           (Scenario.serve Scenario.api_priced Scenario.page_block)
           "bitcoin" (mkprediction "2024-06-01" 65000 "CoinCodex") [] []
           eq_refl eq_refl eq_refl).
Defined.

Lemma entry_reads_either_key_name_witness :
  api_entry Scenario.parse PyFloat.of_decimal
    (PDict [("date", PStr "2024-06-01"); ("price", PStr "65000")])
    (mkfetch [] [])
  = api_entry Scenario.parse PyFloat.of_decimal
      (PDict [("note", PStr "n/a"); ("predicted_price", PStr "65000");
              ("price", PStr ""); ("target_date", PStr "2024-06-01")])
      (mkfetch [] []).
Proof.
  exact (entry_reads_either_key_name Scenario.parse PyFloat.of_decimal
           [("date", PStr "2024-06-01"); ("price", PStr "65000")]
           [("note", PStr "n/a"); ("predicted_price", PStr "65000");
            ("price", PStr ""); ("target_date", PStr "2024-06-01")]
           (mkfetch [] []) eq_refl eq_refl).
Defined.

Lemma falsy_price_entry_is_skipped_witness :
  api_entry Scenario.parse PyFloat.of_decimal
    (PDict [("date", PStr "2024-06-01"); ("price", PInt 0)]) (mkfetch [] [])
  = (mkfetch [] [], Ok tt).
Proof.
  exact (falsy_price_entry_is_skipped Scenario.parse PyFloat.of_decimal
           [("date", PStr "2024-06-01"); ("price", PInt 0)] (PInt 0)
           (mkfetch [] []) eq_refl eq_refl eq_refl).
Defined.

Lemma predictions_object_aborts_first_strategy_witness :
  try_except
    (api_attempt Scenario.parse PyFloat.of_decimal
       (fun _ =>
          Ok (mkresponse 200 ""
                (Some (PDict [("price_prediction",
                               PDict [("2024-06-01", PStr "65000")])]))
                None))
       "bitcoin")
    (fun e => logging_f DEBUG (ApiFailed e)) (mkfetch [] [])
  = (mkfetch [] [(DEBUG, ApiFailed AttributeError)], Ok tt).
Proof.
  exact (predictions_object_aborts_first_strategy Scenario.parse
           PyFloat.of_decimal
           (fun _ =>
              Ok (mkresponse 200 ""
                    (Some (PDict [("price_prediction",
                                   PDict [("2024-06-01", PStr "65000")])]))
                    None))
           "bitcoin"
           (mkresponse 200 ""
              (Some (PDict [("price_prediction",
                             PDict [("2024-06-01", PStr "65000")])]))
              None)
           [("price_prediction", PDict [("2024-06-01", PStr "65000")])]
           [] "2024-06-01" (PStr "65000") eq_refl eq_refl eq_refl eq_refl).
Defined.

(* ================================================================== *)
(** ** The price lookup, path by path *)

Module DayMonthYear.

Import IsoText.

Lemma chars_append (a b : string) :
  Str.chars (a ++ b) = (Str.chars a ++ Str.chars b)%list.
Proof.
  unfold Str.chars. induction a as [|x a IH]; cbn; [reflexivity|now rewrite IH].
Qed.

(** A zero-padded number reads back as the number. *)
Lemma to_Z_pad (w : nat) :
  forall n, 0 <= n < 10 ^ Z.of_nat w -> Str.to_Z (Str.chars (Str.pad w n)) = n.
Proof.
  induction w as [|w IH]; intros n H.
  - cbn in *. lia.
  - rewrite Nat2Z.inj_succ, Z.pow_succ_r in H by lia.
    cbn [Str.pad]. rewrite chars_append. unfold Str.to_Z.
    rewrite fold_left_app. cbn [fold_left Str.chars list_ascii_of_string].
    fold (Str.to_Z (Str.chars (Str.pad w (n / 10)))).
    rewrite IH.
    + rewrite digit_val_digit_char by (apply Z.mod_pos_bound; lia).
      pose proof (Z.div_mod n 10 ltac:(lia)). lia.
    + split; [apply Z.div_pos; lia|apply Z.div_lt_upper_bound; lia].
Qed.

(** The year of [%Y] reads back as the year. *)
Lemma to_Z_strftime_Y (y : Z) :
  0 <= y < 10000 -> Str.to_Z (Str.chars (strftime_Y y)) = y.
Proof.
  intros H. unfold strftime_Y.
  destruct (y <? 10) eqn:E1; [apply to_Z_pad; cbn; lia|].
  destruct (y <? 100) eqn:E2; [apply to_Z_pad; cbn; lia|].
  destruct (y <? 1000) eqn:E3; apply to_Z_pad; cbn; lia.
Qed.

Lemma string_compare_refl (s : string) : String.compare s s = Eq.
Proof.
  induction s as [|x s IH]; cbn; [reflexivity|].
  assert (Ascii.compare x x = Eq) as ->
    by (unfold Ascii.compare; apply N.compare_refl).
  exact IH.
Qed.

Lemma append_inj_l (p a b : string) : (p ++ a = p ++ b)%string -> a = b.
Proof.
  induction p as [|x p IH]; cbn; intros H; [exact H|].
  injection H as H. auto.
Qed.

(** Two calendar dates with one day-month-year text are one date. *)
Lemma strftime_dmy_inj (a b : date) :
  valid_date a -> valid_date b -> strftime_dmy a = strftime_dmy b -> a = b.
Proof.
  intros Va Vb H.
  destruct (IsoDate.valid_in_range a Va) as (Ya & Ma & Da).
  destruct (IsoDate.valid_in_range b Vb) as (Yb & Mb & Db).
  pose proof (string_compare_refl (strftime_dmy b)) as C.
  rewrite <- H in C at 1. unfold strftime_dmy in C.
  rewrite compare_pad in C by lia.
  change (Z.of_nat 2) with 2 in C. change (10 ^ 2) with 100 in C.
  rewrite !Z.mod_small in C by lia.
  destruct (Z.compare_spec (day a) (day b)) as [Ed|?|?]; try discriminate C.
  cbn [append String.compare] in C.
  change (Ascii.compare "-" "-") with Eq in C. cbv iota in C.
  rewrite compare_pad in C by lia.
  change (Z.of_nat 2) with 2 in C. change (10 ^ 2) with 100 in C.
  rewrite !Z.mod_small in C by lia.
  destruct (Z.compare_spec (month a) (month b)) as [Em|?|?]; try discriminate C.
  cbn [append String.compare] in C.
  change (Ascii.compare "-" "-") with Eq in C. cbv iota in C.
  apply String.compare_eq_iff in C.
  apply (f_equal (fun t => Str.to_Z (Str.chars t))) in C.
  rewrite !to_Z_strftime_Y in C by lia.
  destruct a, b. cbn in *. congruence.
Qed.

(** Two calendar dates with one history URL are one date. *)
Lemma history_url_inj (gecko : string) (a b : date) :
  valid_date a -> valid_date b ->
  history_url gecko a = history_url gecko b -> a = b.
Proof.
  intros Va Vb H. unfold history_url in H.
  repeat apply append_inj_l in H.
  apply strftime_dmy_inj; assumption.
Qed.

End DayMonthYear.

Section LookupProperties.

Variable float_of_str : string -> option float.



(** X16. The success path: a 200 answer whose body holds
    [market_data.current_price.usd] gives that value as a float, and
    nothing is logged. *)
Theorem lookup_returns_nested_price (get : string -> exc response)
    (gecko target : string) (d : date) (r : response)
    (j md cp : list (string * pyval)) (usd : pyval) (f : float)
    (lg : list log_record) :
  fromisoformat target = Some d ->
  get (history_url gecko d) = Ok r ->
  status_code r = 200 ->
  json r = Some (PDict j) ->
  Py.lookup "market_data" j = Some (PDict md) ->
  Py.lookup "current_price" md = Some (PDict cp) ->
  Py.lookup "usd" cp = Some usd ->
  Py.to_float float_of_str usd = Ok f ->
  get_actual_price_from_coingecko float_of_str get gecko target lg
  = (lg, Ok (Some f)).
Proof.
  intros Hd Hg Hs Hj Hmd Hcp Husd Hf. unfold get_actual_price_from_coingecko.
  unfold bind at 1, lift at 1, or_raise. rewrite Hd.
  fold (history_url gecko d). unfold bind at 1, lift at 1. rewrite Hg.
  unfold bind at 1, history_price. rewrite Hs. cbn [Z.eqb Pos.eqb].
  unfold bind, lift, ret, or_raise. rewrite Hj. cbn [Py.get]. rewrite Hmd.
  assert (Py.truthy (PDict md) = true) as ->
    by (destruct md; [discriminate Hcp|reflexivity]).
  cbn [Py.contains Py.subscript]. rewrite Hcp. unfold or_raise.
  cbn [Py.contains Py.subscript]. rewrite Husd. unfold or_raise. rewrite Hf.
  reflexivity.
Qed.

(** X17. A target date written by [isoformat] is always accepted by the
    lookup and the request is made; the outcome depends on the service
    through the URL of that day only, an exception of the request is the
    exception of the lookup, and no other day has the same URL (the URL
    carries the date as day-month-year). *)
Theorem lookup_asks_day_month_year (get get' : string -> exc response)
    (gecko : string) (d : date) (lg : list log_record) :
  valid_date d ->
  get' (history_url gecko d) = get (history_url gecko d) ->
  get_actual_price_from_coingecko float_of_str get' gecko (isoformat d) lg
  = get_actual_price_from_coingecko float_of_str get gecko (isoformat d) lg
  /\ (forall e, get (history_url gecko d) = Raise e ->
        get_actual_price_from_coingecko float_of_str get gecko (isoformat d) lg
        = (lg, Raise e))
  /\ (forall d', valid_date d' ->
        history_url gecko d' = history_url gecko d -> d' = d).
Proof.
  intros V Hsame.
  unfold get_actual_price_from_coingecko, bind, lift, or_raise.
  rewrite (IsoDate.fromisoformat_isoformat d V). cbv zeta.
  fold (history_url gecko d).
  split; [|split].
  - rewrite Hsame. reflexivity.
  - intros e He. rewrite He. reflexivity.
  - intros d' V' H. apply (DayMonthYear.history_url_inj gecko); assumption.
Qed.

End LookupProperties.

Lemma lookup_returns_nested_price_witness :
  get_actual_price_from_coingecko PyFloat.of_decimal
    (fun _ => Ok Scenario.history_60000) "bitcoin" "2024-06-01" []
  = ([], Ok (Some 60000%float)).
Proof.
  exact (lookup_returns_nested_price PyFloat.of_decimal
           (fun _ => Ok Scenario.history_60000) "bitcoin" "2024-06-01"
           (mkdate 2024 6 1) Scenario.history_60000
           [("market_data",
             PDict [("current_price", PDict [("usd", PFloat 60000)])])]
           [("current_price", PDict [("usd", PFloat 60000)])]
           [("usd", PFloat 60000)] (PFloat 60000) 60000%float []
           eq_refl eq_refl eq_refl eq_refl eq_refl eq_refl eq_refl eq_refl).
Defined.

Lemma lookup_asks_day_month_year_witness :
  history_url "bitcoin" (mkdate 999 12 31)
  = "https://api.coingecko.com/api/v3/coins/bitcoin/history?date=31-12-999"
  /\ get_actual_price_from_coingecko PyFloat.of_decimal
       (fun url =>
          if String.eqb url (history_url "bitcoin" (mkdate 999 12 31))
          then Raise Timeout else Ok Scenario.history_60000)
       "bitcoin" (isoformat (mkdate 999 12 31)) []
     = get_actual_price_from_coingecko PyFloat.of_decimal
         (fun _ => Raise Timeout) "bitcoin" (isoformat (mkdate 999 12 31)) []
  /\ (forall e, (fun _ : string => @Raise response Timeout)
                  (history_url "bitcoin" (mkdate 999 12 31)) = Raise e ->
        get_actual_price_from_coingecko PyFloat.of_decimal
          (fun _ => Raise Timeout) "bitcoin" (isoformat (mkdate 999 12 31)) []
        = ([], Raise e))
  /\ (forall d', valid_date d' ->
        history_url "bitcoin" d' = history_url "bitcoin" (mkdate 999 12 31) ->
        d' = mkdate 999 12 31).
Proof.
  split; [reflexivity|].
  exact (lookup_asks_day_month_year PyFloat.of_decimal
           (fun _ => Raise Timeout)
           (fun url =>
              if String.eqb url (history_url "bitcoin" (mkdate 999 12 31))
              then Raise Timeout else Ok Scenario.history_60000)
           "bitcoin" (mkdate 999 12 31) [] eq_refl eq_refl).
Defined.

(* ================================================================== *)
(** ** The patterns of the scraper *)

Module ReFacts.

(** The loop of [Re.rmatch] on [Rep], given that the body is sound. *)
Lemma rep_sound {A : Type} (r0 : Re.regex) (k : list ascii -> option A)
    (Body : forall s (k' : list ascii -> option A) x,
        Re.rmatch r0 s k' = Some x ->
        exists w s', s = (w ++ s')%list /\ lang r0 w /\ k' s' = Some x) :
  forall (budget lo : nat) (s : list ascii) (x : A),
    (fix rep (budget lo : nat) (s : list ascii) {struct budget} : option A :=
       let stop := match lo with O => k s | S _ => None end in
       match budget with
       | O => stop
       | S b =>
           match Re.rmatch r0 s (fun s' => rep b (Nat.pred lo) s') with
           | Some x => Some x
           | None => stop
           end
       end) budget lo s = Some x ->
    exists ws s',
      s = (List.concat ws ++ s')%list
      /\ Forall (lang r0) ws
      /\ (lo <= List.length ws)%nat
      /\ (List.length ws <= budget)%nat
      /\ k s' = Some x.
Proof.
  assert (Stop : forall lo s x,
             match lo with O => k s | S _ => None end = Some x ->
             exists ws s',
               s = (List.concat ws ++ s')%list
               /\ Forall (lang r0) ws
               /\ (lo <= List.length ws)%nat
               /\ (List.length ws <= 0)%nat
               /\ k s' = Some x).
  { intros lo s x H. destruct lo; [|discriminate].
    exists [], s. cbn. repeat split; auto. }
  induction budget as [|b IH]; intros lo s x H.
  - apply Stop. exact H.
  - cbv zeta in H.
    destruct (Re.rmatch r0 s _) as [y|] eqn:E.
    + injection H as <-. apply Body in E as [w [s1 [Es [Lw Hrest]]]].
      apply IH in Hrest as [ws [s' [Es1 [F [Hlo [Hb Hk]]]]]].
      exists (w :: ws), s'. cbn [List.concat List.length].
      rewrite <- app_assoc, <- Es1, <- Es.
      repeat split; [constructor; assumption|lia|lia|exact Hk].
    + destruct (Stop lo s x H) as [ws [s' [Es [F [Hlo [Hb Hk]]]]]].
      exists ws, s'. repeat split; auto. lia.
Qed.

(** The matcher is sound for the declarative reading: what it consumes
    before calling its continuation is a word of the pattern. *)
Lemma rmatch_sound {A : Type} (r : Re.regex) :
  forall (s : list ascii) (k : list ascii -> option A) (x : A),
    Re.rmatch r s k = Some x ->
    exists w s', s = (w ++ s')%list /\ lang r w /\ k s' = Some x.
Proof.
  induction r as [|p|r1 IH1 r2 IH2|lo hi r0 IH]; intros s k x H;
    cbn [Re.rmatch] in H.
  - exists [], s. cbn. auto.
  - destruct s as [|c s]; [discriminate|].
    destruct (p c) eqn:Ep; [|discriminate].
    exists [c], s. cbn. split; [reflexivity|]. split; [|exact H].
    exists c. auto.
  - apply IH1 in H as [w1 [s1 [E1 [L1 H]]]].
    apply IH2 in H as [w2 [s2 [E2 [L2 H]]]].
    exists (w1 ++ w2)%list, s2. rewrite <- app_assoc, <- E2, <- E1.
    split; [reflexivity|]. split; [|exact H]. cbn. eauto.
  - apply (rep_sound r0 k IH) in H as [ws [s' [Es [F [Hlo [Hb Hk]]]]]].
    exists (List.concat ws), s'. split; [exact Es|]. split; [|exact Hk].
    cbn [lang]. exists ws. repeat split; auto.
    destruct hi; [exact Hb|exact I].
Qed.

(** A match at the head of a text captures a word of the group. *)
Lemma match_at_sound (p : Re.pattern) (s cap rest : list ascii) :
  Re.match_at p s = Some (cap, rest) -> lang (Re.grp p) cap.
Proof.
  unfold Re.match_at. intros H.
  apply rmatch_sound in H as [w0 [s1 [_ [_ H]]]].
  apply rmatch_sound in H as [w [s2 [E [L H]]]].
  injection H as <- _. subst s1.
  rewrite length_app, Nat.add_sub, firstn_app, Nat.sub_diag, firstn_all.
  cbn. now rewrite app_nil_r.
Qed.

(** Every string [findall] returns is a word of the group. *)
Lemma scan_sound (p : Re.pattern) (s : list ascii) :
  forall (skip : nat) (m : string),
    In m (Re.scan p s skip) ->
    exists w, lang (Re.grp p) w /\ m = Str.of_chars w.
Proof.
  induction s as [|c s IH]; intros skip m H.
  - destruct skip; cbn in H; [|destruct H].
    destruct (Re.match_at p []) as [[cap rest]|] eqn:E; [|destruct H].
    destruct H as [<-|[]]. exists cap. split; [|reflexivity].
    exact (match_at_sound p [] cap rest E).
  - destruct skip; cbn [Re.scan] in H; [|exact (IH _ _ H)].
    destruct (Re.match_at p (c :: s)) as [[cap rest]|] eqn:E;
      [|exact (IH _ _ H)].
    destruct H as [<-|H]; [|exact (IH _ _ H)].
    exists cap. split; [|reflexivity].
    exact (match_at_sound p (c :: s) cap rest E).
Qed.

End ReFacts.

Module PriceTokens.

Lemma digit_not_comma (c : ascii) :
  Str.is_digit c = true -> not_comma c = true.
Proof.
  unfold not_comma. destruct (Ascii.eqb c ",") eqn:E; [|reflexivity].
  apply Ascii.eqb_eq in E. subst c. discriminate.
Qed.

Lemma filter_digits (l : list ascii) :
  forallb Str.is_digit l = true -> filter not_comma l = l.
Proof.
  induction l as [|c l IH]; cbn; [reflexivity|]. intros H.
  apply andb_true_iff in H as [Hc Hl].
  now rewrite (digit_not_comma c Hc), (IH Hl).
Qed.

(** A run of digit matches is a run of digits, one per match. *)
Lemma digit_words (ws : list (list ascii)) :
  Forall (lang Re.digit) ws ->
  forallb Str.is_digit (List.concat ws) = true
  /\ List.length (List.concat ws) = List.length ws.
Proof.
  induction 1 as [|w ws [c [-> Hc]] _ [IH1 IH2]]; cbn; [auto|].
  rewrite Hc, IH1, IH2. auto.
Qed.

(** The thousands groups, once the commas are removed, are digits. *)
Lemma comma_groups (ws : list (list ascii)) :
  Forall (lang (Re.Seq (Re.chr ",") (Re.Rep 3 (Some 3%nat) Re.digit))) ws ->
  forallb Str.is_digit (filter not_comma (List.concat ws)) = true.
Proof.
  induction 1 as [|w ws Hw _ IH]; cbn; [reflexivity|].
  destruct Hw as [w1 [w2 [-> [[c [-> Hc]] [ds [-> [Hd _]]]]]]].
  apply Ascii.eqb_eq in Hc. subst c.
  destruct (digit_words ds Hd) as [Hdig _].
  cbn. rewrite filter_app, forallb_app, (filter_digits _ Hdig), Hdig, IH.
  reflexivity.
Qed.

(** The optional fraction is empty or a point and at least one digit. *)
Lemma fraction_word (ws : list (list ascii)) :
  Forall (lang (Re.Seq (Re.chr ".") (Re.Rep 1 None Re.digit))) ws ->
  (List.length ws <= 1)%nat ->
  List.concat ws = []
  \/ exists e, List.concat ws = "."%char :: e
               /\ forallb Str.is_digit e = true /\ (1 <= List.length e)%nat.
Proof.
  intros F L. destruct ws as [|w [|w' ws]]; [left; reflexivity| |cbn in L; lia].
  right. inversion F as [|? ? Hw _]; subst.
  destruct Hw as [w1 [w2 [-> [[c [-> Hc]] [ds [-> [Hd [Hlo _]]]]]]]].
  apply Ascii.eqb_eq in Hc. subst c.
  destruct (digit_words ds Hd) as [Hdig Hlen].
  exists (List.concat ds). cbn. rewrite app_nil_r.
  split; [reflexivity|]. split; [exact Hdig|lia].
Qed.

Lemma span_digits_all (d rest : list ascii) :
  forallb Str.is_digit d = true ->
  match rest with [] => True | c :: _ => Str.is_digit c = false end ->
  Dateutil.span_digits (d ++ rest) = (d, rest).
Proof.
  intros Hd Hr. induction d as [|c d IH]; cbn [app Dateutil.span_digits].
  - destruct rest as [|c rest]; [reflexivity|].
    cbn [Dateutil.span_digits]. now rewrite Hr.
  - cbn [forallb] in Hd. apply andb_true_iff in Hd as [Hc Hd].
    now rewrite Hc, (IH Hd).
Qed.

(** A word of the numeric group, its commas removed, is a plain decimal
    literal. *)
Lemma group_word_converts (w : list ascii) :
  lang (Re.grp Re.price_pattern) w ->
  exists f, PyFloat.of_decimal (Str.remove_char "," (Str.of_chars w)) = Some f.
Proof.
  cbn [Re.grp Re.price_pattern lang].
  intros (a & bc & -> & Ha & b & c & -> & Hb & Hc).
  destruct Ha as (ws1 & -> & F1 & Lo1 & _).
  destruct Hb as (ws2 & -> & F2 & _).
  destruct Hc as (ws3 & -> & F3 & _ & Hi3).
  destruct (digit_words ws1 F1) as [Da La].
  pose proof (comma_groups ws2 F2) as Db.
  unfold Str.remove_char, Str.chars, Str.of_chars.
  rewrite list_ascii_of_string_of_list_ascii.
  fold not_comma. rewrite !filter_app, (filter_digits _ Da).
  set (D := (List.concat ws1 ++ filter not_comma (List.concat ws2))%list).
  assert (HD : forallb Str.is_digit D = true)
    by (subst D; rewrite forallb_app, Da, Db; reflexivity).
  assert (LD : (1 <= List.length D)%nat)
    by (subst D; rewrite length_app; lia).
  rewrite app_assoc. fold D.
  unfold PyFloat.of_decimal, Str.chars.
  rewrite list_ascii_of_string_of_list_ascii.
  destruct (fraction_word ws3 F3 Hi3) as [->|[e [-> [He Le]]]].
  - cbn [filter]. rewrite (span_digits_all D [] HD I).
    unfold PyFloat.all_digits. rewrite HD.
    assert ((1 <=? List.length D)%nat = true) as -> by (apply Nat.leb_le; lia).
    cbn. eauto.
  - cbn [filter not_comma Ascii.eqb Bool.eqb negb andb].
    assert (He' : filter not_comma e = e) by (apply filter_digits; exact He).
    fold not_comma. rewrite He'.
    rewrite (span_digits_all D ("."%char :: e) HD eq_refl).
    unfold PyFloat.all_digits. rewrite HD, He.
    assert ((1 <=? List.length D)%nat = true) as -> by (apply Nat.leb_le; lia).
    assert ((1 <=? List.length e)%nat = true) as -> by (apply Nat.leb_le; lia).
    cbn. eauto.
Qed.

Lemma token_converts (txt m : string) :
  In m (Re.findall Re.price_pattern txt) ->
  exists f, PyFloat.of_decimal (Str.remove_char "," m) = Some f.
Proof.
  unfold Re.findall. intros H.
  apply ReFacts.scan_sound in H as [w [L ->]].
  exact (group_word_converts w L).
Qed.

End PriceTokens.

(** X18. In the fallback [float(pr)] cannot raise: every numeric token
    the currency pattern finds, once its commas are removed, is a plain
    decimal literal. *)
Theorem price_tokens_always_convert (txt m : string) :
  In m (Re.findall Re.price_pattern txt) ->
  exists f, PyFloat.of_decimal (Str.remove_char "," m) = Some f.
Proof. apply PriceTokens.token_converts. Qed.

Lemma price_tokens_always_convert_witness :
  exists f, PyFloat.of_decimal (Str.remove_char "," "65,000.00") = Some f.
Proof.
  apply (price_tokens_always_convert Scenario.block_text "65,000.00").
  vm_compute. do 4 right. left. reflexivity.
Defined.

(** X19. So a scraped pair is dropped only when its date does not parse:
    whenever the i-th date token parses, the pair adds a record with that
    date and the value of the i-th numeric token. *)
Theorem scraped_pair_kept_when_date_parses
    (parser_parse : bool -> string -> option date) (txt : string) (i : nat)
    (d : date) (s : fetch_state) :
  let dates := Re.findall Re.date_pattern txt in
  let prices := Re.findall Re.price_pattern txt in
  (i < List.length prices)%nat ->
  parser_parse false (nth i dates "") = Some d ->
  exists f,
    PyFloat.of_decimal (Str.remove_char "," (nth i prices "")) = Some f
    /\ scrape_pair parser_parse PyFloat.of_decimal dates prices i s
       = (mkfetch
            (results s ++ [mkprediction (isoformat d) f "CoinCodex-scrape"])
            (fetch_log s),
          Ok tt).
Proof.
  intros dates prices Hi Hd.
  destruct (PriceTokens.token_converts txt (nth i prices ""))
    as [f Hf]; [apply nth_In; exact Hi|].
  exists f. split; [exact Hf|].
  unfold scrape_pair, try_except, bind, lift, or_raise, append_result, modify.
  rewrite Hd, Hf. reflexivity.
Qed.

Lemma scraped_pair_kept_when_date_parses_witness :
  exists f,
    PyFloat.of_decimal
      (Str.remove_char ","
         (nth 0 (Re.findall Re.price_pattern Scenario.block_text) ""))
    = Some f
    /\ scrape_pair Scenario.parse PyFloat.of_decimal
         (Re.findall Re.date_pattern Scenario.block_text)
         (Re.findall Re.price_pattern Scenario.block_text) 0 (mkfetch [] [])
       = (mkfetch
            ([] ++ [mkprediction (isoformat (mkdate 2024 6 1)) f
                      "CoinCodex-scrape"])
            [],
          Ok tt).
Proof.
  apply (scraped_pair_kept_when_date_parses Scenario.parse Scenario.block_text
           0 (mkdate 2024 6 1) (mkfetch [] [])).
  - vm_compute. lia.
  - vm_compute. reflexivity.
Defined.

(** X21. A call of the extractor writes at most two log records, one per
    strategy, and all of them at DEBUG level. *)
Theorem fetch_logs_at_most_two_debug_records
    (parser_parse : bool -> string -> option date)
    (float_of_str : string -> option float) (get : string -> exc response)
    (symbol : string) :
  exists rs lg,
    fetch_predictions_from_coincodex parser_parse float_of_str get symbol
    = (Ok rs, lg)
    /\ (List.length lg <= 2)%nat
    /\ Forall (fun rec => fst rec = DEBUG) lg.
Proof.
  destruct (fetch_stages parser_parse float_of_str get symbol)
    as [rs1 [lg1 [rs2 [lg2 [E [_ [L1 [N S]]]]]]]].
  exists (rs1 ++ rs2)%list, (lg1 ++ lg2)%list. split; [exact E|].
  assert (H1 : (List.length lg1 <= 1)%nat /\ Forall (fun rec => fst rec = DEBUG) lg1).
  { unfold api_log_ok in L1. destruct (get (api_url symbol)) as [r|e].
    - destruct (status_code r =? 200).
      + destruct (json r).
        * destruct L1 as [->|[e ->]]; cbn; split; auto.
        * destruct L1 as [-> _]. cbn. split; auto.
      + destruct L1 as [-> _]. cbn. split; auto.
    - destruct L1 as [-> _]. cbn. split; auto. }
  assert (H2 : (List.length lg2 <= 1)%nat /\ Forall (fun rec => fst rec = DEBUG) lg2).
  { destruct rs1 as [|r1 rs1].
    - destruct (S eq_refl) as [_ L2]. unfold scrape_log_ok in L2.
      destruct (get (page_url symbol)) as [r|e].
      + destruct (status_code r =? 200).
        * subst lg2. cbn. split; auto.
        * destruct L2 as [-> _]. cbn. split; auto.
      + destruct L2 as [-> _]. cbn. split; auto.
    - destruct N as [_ ->]; [discriminate|]. cbn. split; auto. }
  destruct H1 as [A1 B1], H2 as [A2 B2]. rewrite length_app. split; [lia|].
  apply Forall_app. split; assumption.
Qed.

(* ================================================================== *)
(** ** What can interrupt a run *)

(** A loop that raises was made to raise by one of its passes, made in
    the state the passes before it left, and it stops there. *)
Lemma for_each_raise {S X : Type} (body : X -> M S unit) (l : list X) (e : exn) :
  forall s, snd (for_each l body s) = Raise e ->
    exists pre x post s',
      l = (pre ++ x :: post)%list
      /\ for_each pre body s = (s', Ok tt)
      /\ snd (body x s') = Raise e
      /\ fst (for_each l body s) = fst (body x s').
Proof.
  induction l as [|x l IH]; intros s H; [discriminate H|].
  cbn [for_each] in H |- *. unfold bind in H |- *.
  destruct (body x s) as [s1 [[]|e1]] eqn:E.
  - destruct (IH s1 H) as (pre & y & post & s' & -> & Hpre & Hr & Hs).
    exists (x :: pre), y, post, s'. split; [reflexivity|].
    split; [|split; assumption].
    cbn [for_each]. unfold bind. rewrite E. exact Hpre.
  - cbn in H. injection H as ->. exists [], x, l, s.
    split; [reflexivity|]. split; [reflexivity|]. rewrite E. auto.
Qed.

(** X22. What interrupts a run. When [main] ends with an exception,
    either the fetch phase was stopped by the integrity error of an
    insert (a NaN price), and nothing was evaluated; or the fetch phase
    ended, and the exception is the one raised by the price lookup of one
    due row, called for the CoinGecko id of the row's symbol and the row's
    target date after the rows before it were evaluated, and the database
    is left as those rows left it. *)
Theorem run_interrupted_by_insert_or_lookup
    (parser_parse : bool -> string -> option date)
    (float_of_str : string -> option float)
    (net : nat -> string -> exc response) (today : date) (c : conn) (e : exn) :
  snd (main parser_parse float_of_str net today c) = Raise e ->
  let fetched :=
    for_each TRACK (fetch_coin parser_parse float_of_str net (isoformat today))
      (mkrun c [(INFO, TrackerRun (isoformat today))] O) in
  let due :=
    find_due_predictions today (db (fst fetched)) (Some (isoformat today)) in
  (snd fetched = Raise IntegrityError
   /\ e = IntegrityError
   /\ fst (main parser_parse float_of_str net today c) = fst fetched)
  \/ (snd fetched = Ok tt
      /\ exists pre post pid sym src target P s gecko,
           due = (pre ++ (pid, sym, src, target, P) :: post)%list
           /\ for_each pre (evaluate_row float_of_str net TRACK)
                (mkrun (db (fst fetched))
                   (run_log (fst fetched)
                    ++ [(INFO, FoundDue (List.length due))])
                   (calls (fst fetched)))
              = (s, Ok tt)
           /\ gecko_of TRACK sym = Some gecko
           /\ snd (get_actual_price_from_coingecko float_of_str (net (calls s))
                     gecko target (run_log s))
              = Raise e
           /\ db (fst (main parser_parse float_of_str net today c)) = db s).
Proof.
  intros H. cbv zeta.
  unfold main, run, bind, logging_r, modify, gets in H |- *.
  cbn [db run_log calls app] in H |- *.
  set (fetched :=
         for_each TRACK
           (fetch_coin parser_parse float_of_str net (isoformat today))
           (mkrun c [(INFO, TrackerRun (isoformat today))] O)) in *.
  destruct (fetch_loop parser_parse float_of_str net (isoformat today) TRACK
              (mkrun c [(INFO, TrackerRun (isoformat today))] O))
    as (s1 & o1 & E1 & _ & O1).
  fold fetched in E1. rewrite E1 in H |- *. cbn [fst snd].
  destruct O1 as [->| ->]; [|cbn in H; injection H as <-; left; auto].
  right. split; [reflexivity|].
  destruct (find_due_predictions today (db s1) (Some (isoformat today)))
    as [|row due] eqn:Edue; [discriminate H|].
  match type of H with
  | context [for_each (row :: due) ?B ?S2] =>
      pose proof (for_each_raise B (row :: due) e S2) as R;
      destruct (for_each (row :: due) B S2) as [s3 [[]|e3]] eqn:E3
  end; [discriminate H|].
  cbn in H. injection H as <-.
  destruct (R eq_refl)
    as (pre & [[[[pid sym] src] target] P] & post & s' & El & Hpre & Hr & Hs).
  cbn [fst] in Hs. unfold evaluate_row in Hr, Hs.
  destruct (gecko_of TRACK sym) as [g|] eqn:Eg; [|discriminate Hr].
  destruct (String.eqb g ""); [discriminate Hr|].
  unfold bind at 1, call_price in Hr. unfold bind at 1, call_price in Hs.
  exists pre, post, pid, sym, src, target, P, s', g.
  split; [exact El|]. split; [exact Hpre|]. split; [exact Eg|].
  destruct (get_actual_price_from_coingecko float_of_str (net (calls s')) g
              target (run_log s')) as [lg [[a|]|e']].
  - unfold evaluate, bind, modify, logging_r in Hr. discriminate Hr.
  - discriminate Hr.
  - cbn in Hr |- *. injection Hr as ->. split; [reflexivity|].
    rewrite Hs. reflexivity.
Qed.

Lemma run_interrupted_by_insert_or_lookup_witness :
  let fetched :=
    for_each TRACK
      (fetch_coin Scenario.parse PyFloat.of_decimal
         (fun (_ : nat) (_ : string) => @Raise response Timeout)
         (isoformat (mkdate 2026 11 4)))
      (mkrun Scenario.store_one
         [(INFO, TrackerRun (isoformat (mkdate 2026 11 4)))] O) in
  let due :=
    find_due_predictions (mkdate 2026 11 4) (db (fst fetched))
      (Some (isoformat (mkdate 2026 11 4))) in
  (snd fetched = Raise IntegrityError
   /\ Timeout = IntegrityError
   /\ fst (main Scenario.parse PyFloat.of_decimal
             (fun (_ : nat) (_ : string) => @Raise response Timeout)
             (mkdate 2026 11 4) Scenario.store_one)
      = fst fetched)
  \/ (snd fetched = Ok tt
      /\ exists pre post pid sym src target P s gecko,
           due = (pre ++ (pid, sym, src, target, P) :: post)%list
           /\ for_each pre
                (evaluate_row PyFloat.of_decimal
                   (fun (_ : nat) (_ : string) => @Raise response Timeout) TRACK)
                (mkrun (db (fst fetched))
                   (run_log (fst fetched)
                    ++ [(INFO, FoundDue (List.length due))])
                   (calls (fst fetched)))
              = (s, Ok tt)
           /\ gecko_of TRACK sym = Some gecko
           /\ snd (get_actual_price_from_coingecko PyFloat.of_decimal
                     ((fun (_ : nat) (_ : string) => @Raise response Timeout)
                        (calls s))
                     gecko target (run_log s))
              = Raise Timeout
           /\ db (fst (main Scenario.parse PyFloat.of_decimal
                         (fun (_ : nat) (_ : string) => @Raise response Timeout)
                         (mkdate 2026 11 4) Scenario.store_one))
              = db s).
Proof.
  apply (run_interrupted_by_insert_or_lookup Scenario.parse PyFloat.of_decimal
           (fun _ _ => Raise Timeout) (mkdate 2026 11 4) Scenario.store_one
           Timeout).
  vm_compute. reflexivity.
Defined.
